(** * Lens: a shallow embedding of the tracing core (lens.go, tracer.go, filters)

    The Go code is embedded as executable Rocq definitions.  Everything the
    code reads from its surroundings (the clock, the number of goroutines,
    the call stack) is explicit: the clock and the goroutine count are
    oracles carried by the [World], the call stack is a list of frames passed
    to the functions that inspect it.  Mutable objects reached through
    pointers (the tracer, a span) are threaded as state. *)

From Stdlib Require Import ZArith String Ascii List Bool Lia DecimalString DecimalZ.
From stdpp Require Import gmap strings list.
Import ListNotations.

Set Warnings "-register-all".

Local Open Scope Z_scope.
Local Open Scope string_scope.
Local Open Scope list_scope.

(** ** Go values and library functions the code relies on *)

(** [interface{}] payloads recorded in events: arguments, results, old and new
    values.  They are opaque to the tracer, which only stores them. *)
Inductive Val :=
| VNil
| VInt (z : Z)
| VBool (b : bool)
| VStr (s : string)
| VErr (msg : string)
| VRef (addr : nat).

(** [time.Time]: [wall] is what [UnixNano] returns, [mono] is the monotonic
    reading that [time.Since] subtracts. *)
Record Time := { wall : Z; mono : Z }.

(** [fmt.Sprintf("%d", n)] *)
Definition fmt_d (n : Z) : string := NilZero.string_of_int (Z.to_int n).

(** [strings.Contains(s, substr)] *)
Fixpoint strings_Contains (s substr : string) : bool :=
  String.prefix substr s ||
  match s with
  | EmptyString => false
  | String _ s' => strings_Contains s' substr
  end.

(** A frame of the call stack, as [runtime.Caller] and [runtime.FuncForPC]
    report it: [fn_of_pc] is [None] when [FuncForPC] returns nil. *)
Record Frame := { fn_of_pc : option string; frame_file : string; frame_line : Z }.

(** [runtime.Caller(i)] on a stack whose head is the function calling it. *)
Definition runtime_Caller (stack : list Frame) (i : nat) : option Frame :=
  nth_error stack i.

(** [path/filepath.Match(pattern, name)] belongs to Go's library; the filters
    only use its first result and drop the error. *)
Class PathMatcher := filepath_Match : string -> string -> bool * bool.

(** ** lens.go: the event model *)

Definition EventType := string.

Definition EventVariableRead : EventType := "variable_read".
Definition EventVariableWrite : EventType := "variable_write".
Definition EventFunctionCall : EventType := "function_call".
Definition EventFunctionReturn : EventType := "function_return".
Definition EventMethodCall : EventType := "method_call".
Definition EventFieldAccess : EventType := "field_access".
Definition EventSliceOperation : EventType := "slice_operation".
Definition EventMapOperation : EventType := "map_operation".
Definition EventChannelOperation : EventType := "channel_operation".
Definition EventError : EventType := "error".
Definition EventPanic : EventType := "panic".

Definition Level := Z.

Definition LevelOff : Level := 0.
Definition LevelError : Level := 1.
Definition LevelWarn : Level := 2.
Definition LevelInfo : Level := 3.
Definition LevelDebug : Level := 4.
Definition LevelTrace : Level := 5.

Record Event := {
  ID : string;
  TraceID : string;
  Timestamp : Time;
  Type_ : EventType;
  Component : string;
  Function : string;
  Variable_ : string;
  OldValue : Val;
  NewValue : Val;
  Arguments : list Val;
  ReturnValue : list Val;
  Error : string;
  Duration : Z;
  StackTrace : list string;
  Goroutine : Z;
  SourceFile : string;
  SourceLine : Z;
  SourceFunction : string;
  CallerFile : string;
  CallerLine : Z;
  CallerFunction : string
}.

(** The zero value of [Event]; a composite literal leaves the fields it does
    not mention at these values. *)
Definition Event_zero : Event := {|
  ID := ""; TraceID := ""; Timestamp := {| wall := 0; mono := 0 |};
  Type_ := ""; Component := ""; Function := ""; Variable_ := "";
  OldValue := VNil; NewValue := VNil; Arguments := []; ReturnValue := [];
  Error := ""; Duration := 0; StackTrace := []; Goroutine := 0;
  SourceFile := ""; SourceLine := 0; SourceFunction := "";
  CallerFile := ""; CallerLine := 0; CallerFunction := "" |}.

Record SourceLocation := { File : string; Line : Z; Function_ : string }.

Definition SourceLocation_zero : SourceLocation :=
  {| File := ""; Line := 0; Function_ := "" |}.

(** [isInternalFile] *)
Definition isInternalFile (file : string) : bool :=
  if strings_Contains file "/usr/local/go/src/" || strings_Contains file "/usr/lib/go/src/"
  then true
  else if strings_Contains file "lens.go" || strings_Contains file "tracer.go"
  then true
  else false.

Definition location_of (f : Frame) : SourceLocation :=
  {| File := frame_file f;
     Line := frame_line f;
     Function_ := match fn_of_pc f with Some n => n | None => "" end |}.

(** The [for i := skip; i < skip+10; i++] loop of [getSourceLocation]:
    [n] iterations are left and [i] is the current depth.  [None] means the
    loop ended (ten frames seen, or [runtime.Caller] failed) without a
    [return]. *)
Fixpoint scan_frames (stack : list Frame) (n i : nat) : option SourceLocation :=
  match n with
  | O => None
  | S n' =>
      match runtime_Caller stack i with
      | None => None
      | Some f =>
          if negb (isInternalFile (frame_file f)) then Some (location_of f)
          else scan_frames stack n' (S i)
      end
  end.

(** Frames of the library itself.  File names are the module-relative ones
    a build records; function names are the ones [FuncForPC] reports. *)
Definition lens_go : string := "github.com/baretech/lens/lens.go".
Definition tracer_go : string := "github.com/baretech/lens/tracer.go".

Definition frame (fn file : string) (line : Z) : Frame :=
  {| fn_of_pc := Some fn; frame_file := file; frame_line := line |}.

(** [getSourceLocation(skip)].  [stk] is the stack of its caller; frame 0 is
    [getSourceLocation] itself, at the line of the [runtime.Caller] call. *)
Definition getSourceLocation (stk : list Frame) (skip : nat) : SourceLocation :=
  let here line := frame "github.com/baretech/lens.getSourceLocation" lens_go line :: stk in
  match scan_frames (here 148) 10 skip with
  | Some loc => loc
  | None =>
      match runtime_Caller (here 170) skip with
      | None => SourceLocation_zero
      | Some f => location_of f
      end
  end.

(** [getCallerLocation(skip)] *)
Definition getCallerLocation (stk : list Frame) (skip : nat) : SourceLocation :=
  getSourceLocation
    (frame "github.com/baretech/lens.getCallerLocation" lens_go 203 :: stk) (skip + 1).

(** ** filters *)

Record PackageFilter := {
  pkg_includePatterns : list string;
  pkg_excludePatterns : list string }.

Record FunctionFilter := {
  fn_includePatterns : list string;
  fn_excludePatterns : list string }.

Record DurationFilter := { minDuration : Z }.

Record EventTypeFilter := { allowedTypes : gmap EventType bool }.

(** The [Filter] interface with the implementations of the package;
    [CustomFilter] stands for an implementation supplied by the user. *)
Inductive Filter :=
| FPackage (f : PackageFilter)
| FFunction (f : FunctionFilter)
| FDuration (f : DurationFilter)
| FEventType (f : EventTypeFilter)
| FComposite (filters : list Filter)
| CustomFilter (should : Event -> bool).

Definition NewPackageFilter : PackageFilter :=
  {| pkg_includePatterns := []; pkg_excludePatterns := [] |}.

Definition IncludePackages (f : PackageFilter) (patterns : list string) : PackageFilter :=
  {| pkg_includePatterns := pkg_includePatterns f ++ patterns;
     pkg_excludePatterns := pkg_excludePatterns f |}.

Definition ExcludePackages (f : PackageFilter) (patterns : list string) : PackageFilter :=
  {| pkg_includePatterns := pkg_includePatterns f;
     pkg_excludePatterns := pkg_excludePatterns f ++ patterns |}.

Definition NewFunctionFilter : FunctionFilter :=
  {| fn_includePatterns := []; fn_excludePatterns := [] |}.

Definition IncludeFunctions (f : FunctionFilter) (patterns : list string) : FunctionFilter :=
  {| fn_includePatterns := fn_includePatterns f ++ patterns;
     fn_excludePatterns := fn_excludePatterns f |}.

Definition ExcludeFunctions (f : FunctionFilter) (patterns : list string) : FunctionFilter :=
  {| fn_includePatterns := fn_includePatterns f;
     fn_excludePatterns := fn_excludePatterns f ++ patterns |}.

Definition NewDurationFilter (d : Z) : DurationFilter := {| minDuration := d |}.

Definition NewEventTypeFilter (types : list EventType) : EventTypeFilter :=
  {| allowedTypes := fold_left (fun m t => <[t:=true]> m) types ∅ |}.

Definition NewCompositeFilter (filters : list Filter) : Filter := FComposite filters.

(** [for _, x := range xs { if p(x) { return true } }]: the loop reports
    whether it returned from inside. *)
Fixpoint range_returns {A} (p : A -> bool) (xs : list A) : bool :=
  match xs with
  | [] => false
  | x :: xs' => if p x then true else range_returns p xs'
  end.

(** The same loop, instrumented: the elements the body ran on, in order. *)
Fixpoint range_visited {A} (p : A -> bool) (xs : list A) : list A :=
  match xs with
  | [] => []
  | x :: xs' => if p x then [x] else x :: range_visited p xs'
  end.

Section Filters.
Context {matcher : PathMatcher}.

(** [if matched, _ := filepath.Match(pattern, name); matched] *)
Definition matched (name pattern : string) : bool := fst (filepath_Match pattern name).

(** [PackageFilter.ShouldTrace] *)
Definition PackageFilter_ShouldTrace (f : PackageFilter) (event : Event) : bool :=
  let component := Component event in
  if String.eqb component "" then true
  else if range_returns (matched component) (pkg_excludePatterns f) then false
  else if Nat.eqb (length (pkg_includePatterns f)) 0 then true
  else if range_returns (matched component) (pkg_includePatterns f) then true
  else false.

(** [FunctionFilter.ShouldTrace] *)
Definition FunctionFilter_ShouldTrace (f : FunctionFilter) (event : Event) : bool :=
  let function := Function event in
  if String.eqb function "" then true
  else if range_returns (matched function) (fn_excludePatterns f) then false
  else if Nat.eqb (length (fn_includePatterns f)) 0 then true
  else if range_returns (matched function) (fn_includePatterns f) then true
  else false.

(** [DurationFilter.ShouldTrace] *)
Definition DurationFilter_ShouldTrace (f : DurationFilter) (event : Event) : bool :=
  if Z.eqb (Duration event) 0 then true
  else Z.leb (minDuration f) (Duration event).

(** [EventTypeFilter.ShouldTrace] *)
Definition EventTypeFilter_ShouldTrace (f : EventTypeFilter) (event : Event) : bool :=
  if Nat.eqb (size (allowedTypes f)) 0 then true
  else default false (allowedTypes f !! Type_ event).

(** [ShouldTrace] through the interface.  The composite's loop
    [for _, filter := range f.filters { if !filter.ShouldTrace(event)
    { return false } }; return true] returns [false] from inside or [true]
    after the loop. *)
Fixpoint ShouldTrace (f : Filter) (event : Event) : bool :=
  match f with
  | FPackage pf => PackageFilter_ShouldTrace pf event
  | FFunction ff => FunctionFilter_ShouldTrace ff event
  | FDuration df => DurationFilter_ShouldTrace df event
  | FEventType tf => EventTypeFilter_ShouldTrace tf event
  | FComposite fs => negb (range_returns (fun g => negb (ShouldTrace g event)) fs)
  | CustomFilter should => should event
  end.

Definition CompositeFilter_ShouldTrace (fs : list Filter) (event : Event) : bool :=
  ShouldTrace (FComposite fs) event.

(** The sub-filters whose [ShouldTrace] the composite's loop calls. *)
Definition CompositeFilter_consulted (fs : list Filter) (event : Event) : list Filter :=
  range_visited (fun g => negb (ShouldTrace g event)) fs.
End Filters.

(** ** tracer.go: the tracer and the world it runs in *)

(** The [Writer] interface: the two sinks of the package and user sinks. *)
Inductive Writer :=
| ConsoleWriter (colored : bool)
| JSONFileWriter (path : string)
| CustomWriter (id : nat).

Record TracerImpl := {
  level : Level;
  enabled : bool;
  writers : list Writer;
  filters : list Filter }.

(** What a run reads and leaves behind.  [tracer] is the object behind the
    [*TracerImpl] receiver.  [clock n] is the reading of the [n]-th call of
    [time.Now] and [ticks] counts the calls made so far; [numGoroutine] is
    [runtime.NumGoroutine()] at each instant.  [dispatched] lists the events
    handed to [TraceEvent], [writes] the [go w.Write(event)] started, both
    oldest first. *)
Record World := {
  tracer : TracerImpl;
  clock : nat -> Time;
  ticks : nat;
  numGoroutine : nat -> Z;
  dispatched : list Event;
  writes : list (Writer * Event) }.

Definition set_tracer (t : TracerImpl) (w : World) : World :=
  {| tracer := t; clock := clock w; ticks := ticks w; numGoroutine := numGoroutine w;
     dispatched := dispatched w; writes := writes w |}.

Definition tick (w : World) : World :=
  {| tracer := tracer w; clock := clock w; ticks := S (ticks w);
     numGoroutine := numGoroutine w; dispatched := dispatched w; writes := writes w |}.

Definition record_dispatch (e : Event) (w : World) : World :=
  {| tracer := tracer w; clock := clock w; ticks := ticks w; numGoroutine := numGoroutine w;
     dispatched := dispatched w ++ [e]; writes := writes w |}.

Definition start_writes (ws : list (Writer * Event)) (w : World) : World :=
  {| tracer := tracer w; clock := clock w; ticks := ticks w; numGoroutine := numGoroutine w;
     dispatched := dispatched w; writes := writes w ++ ws |}.

(** Code that reads or changes the world. *)
Definition M (A : Type) : Type := World -> A * World.

#[global] Instance M_ret : MRet M := fun A a w => (a, w).
#[global] Instance M_bind : MBind M :=
  fun A B f m w => let '(a, w') := m w in f a w'.

Definition get_tracer : M TracerImpl := fun w => (tracer w, w).
Definition modify_tracer (f : TracerImpl -> TracerImpl) : M unit :=
  fun w => (tt, set_tracer (f (tracer w)) w).

(** [time.Now()] *)
Definition time_Now : M Time := fun w => (clock w (ticks w), tick w).

(** [time.Since(start)] *)
Definition time_Since (start : Time) : M Z :=
  now ← time_Now; mret (mono now - mono start).

(** [generateEventID] *)
Definition generateEventID : M string :=
  now ← time_Now; mret ("evt_" +:+ fmt_d (wall now)).

(** [generateTraceID] *)
Definition generateTraceID : M string :=
  now ← time_Now; mret ("trace_" +:+ fmt_d (wall now)).

(** [getGoroutineID] *)
Definition getGoroutineID : M Z := fun w => (numGoroutine w (ticks w), w).

(** [New] and its options *)
Definition Option_ := TracerImpl -> TracerImpl.

Definition WithLevel (l : Level) : Option_ := fun t =>
  {| level := l; enabled := enabled t; writers := writers t; filters := filters t |}.

Definition WithWriter (wr : Writer) : Option_ := fun t =>
  {| level := level t; enabled := enabled t; writers := writers t ++ [wr];
     filters := filters t |}.

Definition New (options : list Option_) : TracerImpl :=
  fold_left (fun t option => option t) options
    {| level := LevelInfo; enabled := true; writers := []; filters := [] |}.

(** [SetLevel], [AddWriter], [AddFilter], [Enable], [Disable] *)
Definition SetLevel (l : Level) : M unit :=
  modify_tracer (fun t =>
    {| level := l; enabled := enabled t; writers := writers t; filters := filters t |}).

Definition AddWriter (wr : Writer) : M unit :=
  modify_tracer (fun t =>
    {| level := level t; enabled := enabled t; writers := writers t ++ [wr];
       filters := filters t |}).

Definition AddFilter (f : Filter) : M unit :=
  modify_tracer (fun t =>
    {| level := level t; enabled := enabled t; writers := writers t;
       filters := filters t ++ [f] |}).

Definition Enable : M unit :=
  modify_tracer (fun t =>
    {| level := level t; enabled := true; writers := writers t; filters := filters t |}).

Definition Disable : M unit :=
  modify_tracer (fun t =>
    {| level := level t; enabled := false; writers := writers t; filters := filters t |}).

Section Tracer.
Context {matcher : PathMatcher}.

(** [TraceEvent].  The call itself is recorded in [dispatched]; the
    goroutines it starts are recorded in [writes], in the order of the
    writer list. *)
Definition TraceEvent (event : Event) : M unit := fun w =>
  let w := record_dispatch event w in
  let t := tracer w in
  if negb (enabled t) then (tt, w)
  else if range_returns (fun filter => negb (ShouldTrace filter event)) (filters t)
  then (tt, w)
  else (tt, start_writes (map (fun wr => (wr, event)) (writers t)) w).
End Tracer.

(** ** tracer.go: wrapping *)

(** How a call ends: it returns its results, or it panics with a value. *)
Inductive Outcome :=
| Returned (results : list Val)
| Panicked (v : Val).

(** A callable Go value: given the stack of its caller and its arguments it
    runs in the world. *)
Definition Callable := list Frame -> list Val -> M Outcome.

(** A function value: [func_name] is [runtime.FuncForPC(pc).Name()], [None]
    when [FuncForPC] returns nil. *)
Record FuncValue := { func_name : option string; func_call : Callable }.

(** [reflect.Kind] *)
Inductive Kind :=
| Invalid | Bool | Int | Int8 | Int16 | Int32 | Int64
| Uint | Uint8 | Uint16 | Uint32 | Uint64 | Uintptr
| Float32 | Float64 | Complex64 | Complex128
| Array | Chan | Func | Interface | Map | Ptr | Slice | String_ | Struct
| UnsafePointer.

(** The kinds that reach the [default] branch of [WrapWithName]. *)
Inductive BasicKind :=
| BBool | BInt | BInt8 | BInt16 | BInt32 | BInt64
| BUint | BUint8 | BUint16 | BUint32 | BUint64 | BUintptr
| BFloat32 | BFloat64 | BComplex64 | BComplex128
| BArray | BString | BUnsafePointer.

Definition kind_of_basic (k : BasicKind) : Kind :=
  match k with
  | BBool => Bool | BInt => Int | BInt8 => Int8 | BInt16 => Int16 | BInt32 => Int32
  | BInt64 => Int64 | BUint => Uint | BUint8 => Uint8 | BUint16 => Uint16
  | BUint32 => Uint32 | BUint64 => Uint64 | BUintptr => Uintptr
  | BFloat32 => Float32 | BFloat64 => Float64 | BComplex64 => Complex64
  | BComplex128 => Complex128 | BArray => Array | BString => String_
  | BUnsafePointer => UnsafePointer
  end.

(** A value passed as [obj interface{}].  Structs and pointers carry their
    method set; a pointer is nil when it has no address. *)
Inductive Obj :=
| ONil
| OBasic (k : BasicKind) (v : Val)
| OPtr (addr : option nat) (methods : list (string * Callable))
| OStruct (fields : list Val) (methods : list (string * Callable))
| OFunc (f : FuncValue)
| OInterface (v : Val)
| OSlice (elems : list Val)
| OMap (entries : list (Val * Val))
| OChan (id : nat).

(** [reflect.TypeOf(obj)], as far as its [Kind()]; [None] is the nil type. *)
Definition TypeOf_Kind (obj : Obj) : option Kind :=
  match obj with
  | ONil => None
  | OBasic k _ => Some (kind_of_basic k)
  | OPtr _ _ => Some Ptr
  | OStruct _ _ => Some Struct
  | OFunc _ => Some Func
  | OInterface _ => Some Interface
  | OSlice _ => Some Slice
  | OMap _ => Some Map
  | OChan _ => Some Chan
  end.

(** [reflect.ValueOf(obj).IsNil()] on a pointer *)
Definition IsNil (obj : Obj) : bool :=
  match obj with
  | OPtr None _ => true
  | _ => false
  end.

(** Calling method [m] of an object, as [obj.m(args)] does. *)
Definition method_of (obj : Obj) (m : string) : option Callable :=
  match obj with
  | OPtr _ methods | OStruct _ methods =>
      snd <$> find (fun nm => String.eqb (fst nm) m) methods
  | _ => None
  end.

(** Frames of package reflect around a function made by [reflect.MakeFunc]
    (from its caller to the closure) and around [Value.Call] (from the
    closure to the callee).  They lie under the Go root; their lines are
    those of one release. *)
Definition reflect_value_go : string := "/usr/local/go/src/reflect/value.go".
Definition reflect_asm : string := "/usr/local/go/src/reflect/asm_amd64.s".

Definition makeFunc_frames (stk : list Frame) : list Frame :=
  frame "reflect.callReflect" reflect_value_go 782
  :: frame "reflect.makeFuncStub" reflect_asm 47 :: stk.

Definition valueCall_frames (stk : list Frame) : list Frame :=
  frame "reflect.Value.call" reflect_value_go 596
  :: frame "reflect.Value.Call" reflect_value_go 380 :: stk.

Section Wrapping.
Context {matcher : PathMatcher}.

(** The closure that [wrapFunction] hands to [reflect.MakeFunc].  [stk] is
    the stack of whoever calls the wrapper.  Arguments and results
    delivered by package reflect can always be converted with
    [Interface()], so the two copy loops copy every element. *)
Definition wrapFunction_func1 (obj : FuncValue) (name : string)
    (wrapSourceLocation wrapCallerLocation : SourceLocation) : Callable :=
  fun stk args =>
    let here line :=
      frame "github.com/baretech/lens.(*TracerImpl).wrapFunction.func1" tracer_go line
      :: makeFunc_frames stk in
    let funcName := match func_name obj with Some n => n | None => name end in
    let argInterfaces := args in
    let sourceLocation := wrapSourceLocation in
    let callerLocation := wrapCallerLocation in
    traceID ← generateTraceID;
    id ← generateEventID;
    now ← time_Now;
    goroutine ← getGoroutineID;
    let callEvent := {|
      ID := id; TraceID := traceID; Timestamp := now; Type_ := EventFunctionCall;
      Component := name; Function := funcName;
      Variable_ := ""; OldValue := VNil; NewValue := VNil;
      Arguments := argInterfaces;
      ReturnValue := []; Error := ""; Duration := 0; StackTrace := [];
      Goroutine := goroutine;
      SourceFile := File sourceLocation; SourceLine := Line sourceLocation;
      SourceFunction := Function_ sourceLocation;
      CallerFile := File callerLocation; CallerLine := Line callerLocation;
      CallerFunction := Function_ callerLocation |} in
    _ ← TraceEvent callEvent;
    start ← time_Now;
    outcome ← func_call obj (valueCall_frames (here 264)) args;
    match outcome with
    | Panicked v => mret (Panicked v)
    | Returned results =>
        duration ← time_Since start;
        let resultInterfaces := results in
        id' ← generateEventID;
        now' ← time_Now;
        goroutine' ← getGoroutineID;
        let returnEvent := {|
          ID := id'; TraceID := traceID; Timestamp := now';
          Type_ := EventFunctionReturn;
          Component := name; Function := funcName;
          Variable_ := ""; OldValue := VNil; NewValue := VNil; Arguments := [];
          ReturnValue := resultInterfaces;
          Error := ""; Duration := duration; StackTrace := [];
          Goroutine := goroutine';
          SourceFile := File sourceLocation; SourceLine := Line sourceLocation;
          SourceFunction := Function_ sourceLocation;
          CallerFile := File callerLocation; CallerLine := Line callerLocation;
          CallerFunction := Function_ callerLocation |} in
        _ ← TraceEvent returnEvent;
        mret (Returned results)
    end.

(** [wrapFunction].  [stk] is the stack of its caller.  [WrapWithName]
    calls it on function values only ([reflect.MakeFunc] would panic on
    anything else). *)
Definition wrapFunction (stk : list Frame) (obj : Obj) (name : string) : Obj :=
  match obj with
  | OFunc f =>
      let here line :=
        frame "github.com/baretech/lens.(*TracerImpl).wrapFunction" tracer_go line :: stk in
      let wrapSourceLocation := getSourceLocation (here 214) 2 in
      let wrapCallerLocation := getCallerLocation (here 215) 2 in
      OFunc {| func_name := Some "reflect.makeFuncStub";
               func_call := wrapFunction_func1 f name wrapSourceLocation wrapCallerLocation |}
  | _ => obj
  end.

(** [wrapPointer] *)
Definition wrapPointer (obj : Obj) (name : string) : Obj :=
  if IsNil obj then obj else obj.

(** [wrapStruct], [wrapInterface], [wrapSlice], [wrapMap], [wrapChannel] *)
Definition wrapStruct (obj : Obj) (name : string) : Obj := obj.
Definition wrapInterface (obj : Obj) (name : string) : Obj := obj.
Definition wrapSlice (obj : Obj) (name : string) : Obj := obj.
Definition wrapMap (obj : Obj) (name : string) : Obj := obj.
Definition wrapChannel (obj : Obj) (name : string) : Obj := obj.

(** [WrapWithName] *)
Definition WrapWithName (stk : list Frame) (obj : Obj) (name : string) : M Obj :=
  t ← get_tracer;
  if negb (enabled t) then mret obj
  else
    match TypeOf_Kind obj with
    | None => mret obj
    | Some Ptr => mret (wrapPointer obj name)
    | Some Struct => mret (wrapStruct obj name)
    | Some Func =>
        mret (wrapFunction
                (frame "github.com/baretech/lens.(*TracerImpl).WrapWithName" tracer_go 44
                 :: stk) obj name)
    | Some Interface => mret (wrapInterface obj name)
    | Some Slice => mret (wrapSlice obj name)
    | Some Map => mret (wrapMap obj name)
    | Some Chan => mret (wrapChannel obj name)
    | Some _ => mret obj
    end.

(** [Wrap] *)
Definition Wrap (stk : list Frame) (obj : Obj) : M Obj :=
  WrapWithName
    (frame "github.com/baretech/lens.(*TracerImpl).Wrap" tracer_go 22 :: stk) obj "".
End Wrapping.

Section MethodsAndSpans.
Context {matcher : PathMatcher}.

(** The closure of [structWrapper.createMethodWrapper]; [sw_name] is
    [sw.name].  No function of the package calls [createProxy] or
    [wrapMethods], and [wrapMethods] drops the wrappers it builds, so this
    closure is never installed on an object. *)
Definition createMethodWrapper_func1 (sw_name : string) (method : Callable)
    (methodName : string) : Callable :=
  fun stk args =>
    let here line :=
      frame "github.com/baretech/lens.(*structWrapper).createMethodWrapper.func1"
        tracer_go line :: makeFunc_frames stk in
    let argInterfaces := args in
    let sourceLocation := getSourceLocation (here 141) 2 in
    let callerLocation := getCallerLocation (here 142) 2 in
    traceID ← generateTraceID;
    id ← generateEventID;
    now ← time_Now;
    goroutine ← getGoroutineID;
    let callEvent := {|
      ID := id; TraceID := traceID; Timestamp := now; Type_ := EventMethodCall;
      Component := sw_name; Function := methodName;
      Variable_ := ""; OldValue := VNil; NewValue := VNil;
      Arguments := argInterfaces;
      ReturnValue := []; Error := ""; Duration := 0; StackTrace := [];
      Goroutine := goroutine;
      SourceFile := File sourceLocation; SourceLine := Line sourceLocation;
      SourceFunction := Function_ sourceLocation;
      CallerFile := File callerLocation; CallerLine := Line callerLocation;
      CallerFunction := Function_ callerLocation |} in
    _ ← TraceEvent callEvent;
    start ← time_Now;
    outcome ← method (valueCall_frames (here 169)) args;
    match outcome with
    | Panicked v => mret (Panicked v)
    | Returned results =>
        duration ← time_Since start;
        let resultInterfaces := results in
        id' ← generateEventID;
        now' ← time_Now;
        goroutine' ← getGoroutineID;
        let returnEvent := {|
          ID := id'; TraceID := traceID; Timestamp := now';
          Type_ := EventFunctionReturn;
          Component := sw_name; Function := methodName;
          Variable_ := ""; OldValue := VNil; NewValue := VNil; Arguments := [];
          ReturnValue := resultInterfaces;
          Error := ""; Duration := duration; StackTrace := [];
          Goroutine := goroutine';
          SourceFile := File sourceLocation; SourceLine := Line sourceLocation;
          SourceFunction := Function_ sourceLocation;
          CallerFile := File callerLocation; CallerLine := Line callerLocation;
          CallerFunction := Function_ callerLocation |} in
        _ ← TraceEvent returnEvent;
        mret (Returned results)
    end.

(** [SpanImpl]; the [tracer] field is the tracer of the world.  [span_tags]
    is [None] for the nil map, [span_error] holds [s.error.Error()]. *)
Record SpanImpl := {
  span_name : string;
  startTime : Time;
  span_traceID : string;
  span_tags : option (gmap string Val);
  span_error : option string }.

(** [StartSpan] *)
Definition StartSpan (name : string) : M SpanImpl :=
  now ← time_Now;
  traceID ← generateTraceID;
  mret {| span_name := name; startTime := now; span_traceID := traceID;
          span_tags := None; span_error := None |}.

(** [SpanImpl.SetTag] *)
Definition SetTag (s : SpanImpl) (key : string) (value : Val) : SpanImpl :=
  let tags := match span_tags s with None => ∅ | Some m => m end in
  {| span_name := span_name s; startTime := startTime s;
     span_traceID := span_traceID s;
     span_tags := Some (<[key:=value]> tags);
     span_error := span_error s |}.

(** [SpanImpl.SetError] *)
Definition SetError (s : SpanImpl) (err : option string) : SpanImpl :=
  {| span_name := span_name s; startTime := startTime s;
     span_traceID := span_traceID s; span_tags := span_tags s;
     span_error := err |}.

(** [event.Error = msg; event.Type = EventError] *)
Definition mark_error (event : Event) (msg : string) : Event := {|
  ID := ID event; TraceID := TraceID event; Timestamp := Timestamp event;
  Type_ := EventError;
  Component := Component event; Function := Function event;
  Variable_ := Variable_ event; OldValue := OldValue event;
  NewValue := NewValue event; Arguments := Arguments event;
  ReturnValue := ReturnValue event;
  Error := msg;
  Duration := Duration event; StackTrace := StackTrace event;
  Goroutine := Goroutine event;
  SourceFile := SourceFile event; SourceLine := SourceLine event;
  SourceFunction := SourceFunction event;
  CallerFile := CallerFile event; CallerLine := CallerLine event;
  CallerFunction := CallerFunction event |}.

(** [SpanImpl.End] *)
Definition End (s : SpanImpl) : M unit :=
  duration ← time_Since (startTime s);
  id ← generateEventID;
  now ← time_Now;
  goroutine ← getGoroutineID;
  let event := {|
    ID := id; TraceID := span_traceID s; Timestamp := now;
    Type_ := EventFunctionReturn;
    Component := ""; Function := span_name s;
    Variable_ := ""; OldValue := VNil; NewValue := VNil; Arguments := [];
    ReturnValue := []; Error := "";
    Duration := duration; StackTrace := []; Goroutine := goroutine;
    SourceFile := ""; SourceLine := 0; SourceFunction := "";
    CallerFile := ""; CallerLine := 0; CallerFunction := "" |} in
  let event :=
    match span_error s with
    | Some msg => mark_error event msg
    | None => event
    end in
  TraceEvent event.

(** [TraceVariable]; [stk] is the stack of its caller. *)
Definition TraceVariable (stk : list Frame) (name : string) (oldVal newVal : Val)
    : M unit :=
  let here line :=
    frame "github.com/baretech/lens.(*TracerImpl).TraceVariable" tracer_go line :: stk in
  let sourceLocation := getSourceLocation (here 368) 2 in
  let callerLocation := getCallerLocation (here 369) 2 in
  id ← generateEventID;
  traceID ← generateTraceID;
  now ← time_Now;
  goroutine ← getGoroutineID;
  TraceEvent {|
    ID := id; TraceID := traceID; Timestamp := now; Type_ := EventVariableWrite;
    Component := ""; Function := ""; Variable_ := name;
    OldValue := oldVal; NewValue := newVal; Arguments := []; ReturnValue := [];
    Error := ""; Duration := 0; StackTrace := []; Goroutine := goroutine;
    SourceFile := File sourceLocation; SourceLine := Line sourceLocation;
    SourceFunction := Function_ sourceLocation;
    CallerFile := File callerLocation; CallerLine := Line callerLocation;
    CallerFunction := Function_ callerLocation |}.
End MethodsAndSpans.

(** ** Concrete surroundings for examples *)

(** A matcher for patterns made of literal characters, [?] and [*], which
    behaves on them as [filepath.Match] does on a system whose separator is
    [/].  It only serves to run the code on concrete inputs; every general
    statement below holds for any matcher. *)
Fixpoint glob (pattern name : list ascii) : bool :=
  match pattern with
  | [] => match name with [] => true | _ => false end
  | p :: pattern' =>
      if Ascii.eqb p "*" then
        (fix star (name : list ascii) : bool :=
           glob pattern' name ||
           match name with
           | [] => false
           | c :: name' => if Ascii.eqb c "/" then false else star name'
           end) name
      else
        match name with
        | [] => false
        | c :: name' =>
            (if Ascii.eqb p "?" then negb (Ascii.eqb c "/") else Ascii.eqb p c)
            && glob pattern' name'
        end
  end.

Definition glob_matcher : PathMatcher :=
  fun pattern name =>
    (glob (list_ascii_of_string pattern) (list_ascii_of_string name), false).

(** A clock with nanosecond steps, and a coarse one whose reading changes
    only every hundredth call. *)
Definition clock_fine : nat -> Time := fun n =>
  {| wall := 1759436509286784000 + 1000 * Z.of_nat n; mono := 1000 * Z.of_nat n |}.

Definition clock_coarse : nat -> Time := fun n =>
  {| wall := 1759436509286000000 + 1000000 * Z.of_nat (n / 100);
     mono := 1000000 * Z.of_nat (n / 100) |}.

Definition world_with (c : nat -> Time) (t : TracerImpl) : World :=
  {| tracer := t; clock := c; ticks := 0; numGoroutine := fun _ => 1;
     dispatched := []; writes := [] |}.

Definition console_tracer : TracerImpl :=
  New [WithLevel LevelTrace; WithWriter (ConsoleWriter true)].

Definition world_fine : World := world_with clock_fine console_tracer.
Definition world_coarse : World := world_with clock_coarse console_tracer.

(** The stack of [main.main] standing at [line] of main.go. *)
Definition main_at (line : Z) : list Frame :=
  [ frame "main.main" "/home/dev/app/main.go" line;
    frame "runtime.main" "/usr/local/go/src/runtime/proc.go" 267;
    frame "runtime.goexit" "/usr/local/go/src/runtime/asm_amd64.s" 1650 ].

(** [func add(a, b int) int { return a + b }] *)
Definition add : FuncValue :=
  {| func_name := Some "main.add";
     func_call := fun _ args =>
       match args with
       | [VInt a; VInt b] => mret (Returned [VInt (a + b)])
       | _ => mret (Panicked (VStr "bad call"))
       end |}.

(** [func div(a, b int) (int, error)], failing with an error value on a zero
    divisor, and [func mustDiv(a, b int) int], which panics instead. *)
Definition div : FuncValue :=
  {| func_name := Some "main.div";
     func_call := fun _ args =>
       match args with
       | [VInt a; VInt b] =>
           if Z.eqb b 0 then mret (Returned [VInt 0; VErr "division by zero"])
           else mret (Returned [VInt (a / b); VNil])
       | _ => mret (Panicked (VStr "bad call"))
       end |}.

Definition mustDiv : FuncValue :=
  {| func_name := Some "main.mustDiv";
     func_call := fun _ args =>
       match args with
       | [VInt a; VInt b] =>
           if Z.eqb b 0 then mret (Panicked (VErr "division by zero"))
           else mret (Returned [VInt (a / b)])
       | _ => mret (Panicked (VStr "bad call"))
       end |}.

(** [calc := NewCalculator(2)], a [*Calculator] with its method [Add]. *)
Definition calculator : Obj :=
  OPtr (Some 1%nat) [("Add", func_call add)].

(** User code: [obj(args...)] and [obj.m(args...)] at the stack [stk]. *)
Definition call_obj (obj : Obj) (stk : list Frame) (args : list Val) : M Outcome :=
  match obj with
  | OFunc f => func_call f stk args
  | _ => mret (Panicked (VStr "call of non-function"))
  end.

Definition call_method (obj : Obj) (m : string) (stk : list Frame) (args : list Val)
    : M Outcome :=
  match method_of obj m with
  | Some c => c stk args
  | None => mret (Panicked (VStr "no such method"))
  end.

Fixpoint call_each (obj : Obj) (calls : list (Z * list Val)) : M (list Outcome) :=
  match calls with
  | [] => mret []
  | (line, args) :: calls' =>
      r ← call_obj obj (main_at line) args;
      rs ← call_each obj calls';
      mret (r :: rs)
  end.

(** [main] wraps [f] at [wrap_line] of main.go ([w := tracer.Wrap(f)]) and
    then calls the result at the given lines with the given arguments. *)
Definition wrap_and_call (f : FuncValue) (wrap_line : Z) (calls : list (Z * list Val))
    : M (list Outcome) :=
  proxy ← Wrap (matcher := glob_matcher) (main_at wrap_line) (OFunc f);
  call_each proxy calls.

(** A call event as user code may hand it to [TraceEvent]. *)
Definition call_event (component function : string) : Event := {|
  ID := "evt_1"; TraceID := "trace_1"; Timestamp := clock_fine 0;
  Type_ := EventFunctionCall; Component := component; Function := function;
  Variable_ := ""; OldValue := VNil; NewValue := VNil; Arguments := [];
  ReturnValue := []; Error := ""; Duration := 0; StackTrace := []; Goroutine := 1;
  SourceFile := ""; SourceLine := 0; SourceFunction := "";
  CallerFile := ""; CallerLine := 0; CallerFunction := "" |}.

(** The runs used below.  [add] is wrapped at line 10 and called at lines 20
    and 30, on either clock; [div] and [mustDiv] are wrapped at line 10 and
    called with a zero divisor at line 20. *)
Definition run_add_fine : list Outcome * World :=
  wrap_and_call add 10 [(20, [VInt 2; VInt 3]); (30, [VInt 4; VInt 5])] world_fine.

Definition run_add_coarse : list Outcome * World :=
  wrap_and_call add 10 [(20, [VInt 2; VInt 3]); (30, [VInt 4; VInt 5])] world_coarse.

Definition run_div_by_zero : list Outcome * World :=
  wrap_and_call div 10 [(20, [VInt 1; VInt 0])] world_fine.

Definition run_mustDiv_by_zero : list Outcome * World :=
  wrap_and_call mustDiv 10 [(20, [VInt 1; VInt 0])] world_fine.

(** The method wrapper of [createMethodWrapper], had it been installed on
    [Add], called at line 20. *)
Definition run_method_wrapper : Outcome * World :=
  createMethodWrapper_func1 (matcher := glob_matcher) "Calculator" (func_call add)
    "Calculator.Add" (main_at 20) [VInt 2; VInt 3] world_fine.

(** [calc := tracer.WrapWithName(NewCalculator(2), "Calculator")] at line 40
    and [calc.Add(2, 3)] at line 41. *)
Definition run_calculator : (Obj * Outcome) * World :=
  (proxy ← WrapWithName (matcher := glob_matcher) (main_at 40) calculator "Calculator";
   r ← call_method proxy "Add" (main_at 41) [VInt 2; VInt 3];
   mret (proxy, r)) world_fine.

(** The world of a tracer with one console writer and the filter
    [ExcludeFunctions("noisy*")]. *)
Definition quiet_world : World :=
  (AddFilter (FFunction (ExcludeFunctions NewFunctionFilter ["noisy*"])) world_fine).2.

(** An event with a recorded duration. *)
Definition timed_event (d : Z) : Event := {|
  ID := "evt_2"; TraceID := "trace_1"; Timestamp := clock_fine 1;
  Type_ := EventFunctionReturn; Component := "main"; Function := "main.add";
  Variable_ := ""; OldValue := VNil; NewValue := VNil; Arguments := [];
  ReturnValue := []; Error := ""; Duration := d; StackTrace := []; Goroutine := 1;
  SourceFile := ""; SourceLine := 0; SourceFunction := "";
  CallerFile := ""; CallerLine := 0; CallerFunction := "" |}.

(** A result that is a non-nil [error]. *)
Definition is_error (v : Val) : bool :=
  match v with VErr _ => true | _ => false end.

(** The reading the next call of [time.Now] returns. *)
Definition reading (w : World) : Time := clock w (ticks w).

(** A monotonic clock never runs backwards. *)
Definition monotonic (c : nat -> Time) : Prop :=
  forall i j : nat, (i <= j)%nat -> mono (c i) <= mono (c j).

(** The stack a wrapper made by [wrapFunction] gives to the original when
    it is itself called on [stk]. *)
Definition callee_stack (stk : list Frame) : list Frame :=
  valueCall_frames
    (frame "github.com/baretech/lens.(*TracerImpl).wrapFunction.func1" tracer_go 264
     :: makeFunc_frames stk).

(** * Properties *)

(** ** lens.go: stack traces *)

(** One line of [getStackTrace]: [fmt.Sprintf("%s:%d %s", file, line, fn.Name())]. *)
Definition stack_line (f : Frame) (name : string) : string :=
  frame_file f +:+ ":" +:+ fmt_d (frame_line f) +:+ " " +:+ name.

(** The [for i := skip; i < skip+10; i++] loop of [getStackTrace]: [n]
    iterations are left, [i] is the current depth. *)
Fixpoint stack_lines (stack : list Frame) (n i : nat) : list string :=
  match n with
  | O => []
  | S n' =>
      match runtime_Caller stack i with
      | None => []
      | Some f =>
          match fn_of_pc f with
          | Some name => stack_line f name :: stack_lines stack n' (S i)
          | None => stack_lines stack n' (S i)
          end
      end
  end.

(** [getStackTrace(skip)]; [stk] is the stack of its caller. *)
Definition getStackTrace (stk : list Frame) (skip : nat) : list string :=
  stack_lines (frame "github.com/baretech/lens.getStackTrace" lens_go 210 :: stk) 10 skip.

(** ** The console writer *)

(** What package fmt and package time contribute to a console line: [%v] of
    one recorded value, [%v] of a [time.Duration], and
    [Timestamp.Format(layout)]. *)
Class Formatter := {
  fmt_v : Val -> string;
  fmt_duration : Z -> string;
  Time_Format : Time -> string -> string }.

(** [%v] of a [[]interface{}]: the elements between brackets, separated by
    spaces. *)
Definition fmt_v_slice `{Formatter} (vs : list Val) : string :=
  "[" +:+ String.concat " " (map fmt_v vs) +:+ "]".

(** The loop of [formatEventDetails] that cuts the file name after its last
    slash: [n] is [i + 1] for the index [i] tested next. *)
Fixpoint cut_at_last_slash (filename : string) (n : nat) : string :=
  match n with
  | O => filename
  | S i =>
      match String.get i filename with
      | Some c =>
          if Ascii.eqb c "/"
          then String.substring (S i) (String.length filename - S i) filename
          else cut_at_last_slash filename i
      | None => cut_at_last_slash filename i
      end
  end.

(** The source-location part of [formatEventDetails]. *)
Definition sourceInfo (event : Event) : string :=
  if negb (String.eqb (CallerFile event) "") && Z.ltb 0 (CallerLine event)
  then
    let filename := cut_at_last_slash (CallerFile event) (String.length (CallerFile event)) in
    " [" +:+ filename +:+ ":" +:+ fmt_d (CallerLine event) +:+ "]"
  else "".

Section Console.
Context {formatter : Formatter}.

(** [ConsoleWriter.formatEventDetails] *)
Definition formatEventDetails (event : Event) : string :=
  let type := Type_ event in
  let details :=
    if String.eqb type EventFunctionCall || String.eqb type EventMethodCall then
      if negb (String.eqb (Function event) "")
      then "func=" +:+ Function event +:+ " args=" +:+ fmt_v_slice (Arguments event)
      else ""
    else if String.eqb type EventFunctionReturn then
      if negb (String.eqb (Function event) "") then
        let duration :=
          if Z.ltb 0 (Duration event) then " duration=" +:+ fmt_duration (Duration event) else "" in
        "func=" +:+ Function event +:+ " returns=" +:+ fmt_v_slice (ReturnValue event)
          +:+ duration
      else ""
    else if String.eqb type EventVariableRead || String.eqb type EventVariableWrite then
      if negb (String.eqb (Variable_ event) "") then
        if String.eqb type EventVariableWrite
        then "var=" +:+ Variable_ event +:+ " old=" +:+ fmt_v (OldValue event)
               +:+ " new=" +:+ fmt_v (NewValue event)
        else "var=" +:+ Variable_ event +:+ " value=" +:+ fmt_v (NewValue event)
      else ""
    else if String.eqb type EventError then "error=" +:+ Error event
    else if negb (String.eqb (Component event) "") then "component=" +:+ Component event
    else "" in
  details +:+ sourceInfo event.

(** The colour chosen by [formatColored]. *)
Definition colorReset : string := String (ascii_of_nat 27) "[0m".
Definition colorRed : string := String (ascii_of_nat 27) "[31m".
Definition colorGreen : string := String (ascii_of_nat 27) "[32m".
Definition colorYellow : string := String (ascii_of_nat 27) "[33m".
Definition colorBlue : string := String (ascii_of_nat 27) "[34m".
Definition colorCyan : string := String (ascii_of_nat 27) "[36m".

Definition event_color (type : EventType) : string :=
  if String.eqb type EventError || String.eqb type EventPanic then colorRed
  else if String.eqb type EventFunctionCall || String.eqb type EventMethodCall then colorBlue
  else if String.eqb type EventFunctionReturn then colorGreen
  else if String.eqb type EventVariableRead || String.eqb type EventVariableWrite
  then colorYellow
  else colorCyan.

(** [ConsoleWriter.formatColored] *)
Definition formatColored (event : Event) : string :=
  let timestamp := Time_Format (Timestamp event) "15:04:05.000" in
  event_color (Type_ event) +:+ "[" +:+ timestamp +:+ "] " +:+ Type_ event +:+ " "
    +:+ formatEventDetails event +:+ colorReset.

(** [ConsoleWriter.formatPlain] *)
Definition formatPlain (event : Event) : string :=
  let timestamp := Time_Format (Timestamp event) "15:04:05.000" in
  "[" +:+ timestamp +:+ "] " +:+ Type_ event +:+ " " +:+ formatEventDetails event.

(** [ConsoleWriter.Write]: the line handed to [fmt.Println] and the error
    returned, which is always nil. *)
Definition ConsoleWriter_Write (colored : bool) (event : Event) : string * option string :=
  let output := if colored then formatColored event else formatPlain event in
  (output, None).
End Console.

(** ** The JSON file writer *)

(** Calls into package os, in the order they are made. *)
Inductive OpenFlag := O_CREATE | O_WRONLY | O_APPEND.

Inductive OsCall :=
| OsMkdirAll (dir : string) (perm : Z)
| OsOpenFile (path : string) (flags : list OpenFlag) (perm : Z)
| OsWrite (file : nat) (data : string)
| OsSync (file : nat)
| OsClose (file : nat).

(** The operating system as the writer meets it: [os_error n] is the error
    of the [n]-th call ([None]: it succeeds), [os_calls] the calls made so
    far.  An opened file is named by the number of the call that opened it. *)
Record Disk := { os_error : nat -> option string; os_calls : list OsCall }.

Definition os_call (c : OsCall) (d : Disk) : option string * Disk :=
  (os_error d (length (os_calls d)),
   {| os_error := os_error d; os_calls := os_calls d ++ [c] |}).

(** [encoding/json.Marshal] on an event (data or error text) and
    [path/filepath.Dir]. *)
Class JSONLib := {
  json_Marshal : Event -> string + string;
  filepath_Dir : string -> string }.

Record JSONFileWriter_ := {
  jw_path : string;
  jw_file : option nat;
  jw_buffer : list Event }.

Section JSON.
Context {jsonlib : JSONLib}.

(** [NewJSONFileWriter] *)
Definition NewJSONFileWriter (path : string) (d : Disk)
    : (JSONFileWriter_ + string) * Disk :=
  let dir := filepath_Dir path in
  let '(err, d) := os_call (OsMkdirAll dir 493) d in
  match err with
  | Some e => (inr ("failed to create directory: " +:+ e), d)
  | None =>
      let file := length (os_calls d) in
      let '(err, d) := os_call (OsOpenFile path [O_CREATE; O_WRONLY; O_APPEND] 420) d in
      match err with
      | Some e => (inr ("failed to open file: " +:+ e), d)
      | None => (inl {| jw_path := path; jw_file := Some file; jw_buffer := [] |}, d)
      end
  end.

(** [JSONFileWriter.Write].  On a nil [*os.File], [Write] returns
    [os.ErrInvalid] without reaching the system. *)
Definition JSONFileWriter_Write (w : JSONFileWriter_) (event : Event) (d : Disk)
    : option string * Disk :=
  match json_Marshal event with
  | inr e => (Some ("failed to marshal event: " +:+ e), d)
  | inl data =>
      let '(err, d) :=
        match jw_file w with
        | Some file => os_call (OsWrite file (data +:+ String (ascii_of_nat 10) "")) d
        | None => (Some "invalid argument", d)
        end in
      match err with
      | Some e => (Some ("failed to write to file: " +:+ e), d)
      | None => (None, d)
      end
  end.

(** [JSONFileWriter.Flush] *)
Definition JSONFileWriter_Flush (w : JSONFileWriter_) (d : Disk) : option string * Disk :=
  match jw_file w with
  | Some file => os_call (OsSync file) d
  | None => (None, d)
  end.

(** [JSONFileWriter.Close]: the error returned and the writer afterwards. *)
Definition JSONFileWriter_Close (w : JSONFileWriter_) (d : Disk)
    : (option string * JSONFileWriter_) * Disk :=
  match jw_file w with
  | Some file =>
      let '(err, d) := os_call (OsClose file) d in
      ((err, {| jw_path := jw_path w; jw_file := None; jw_buffer := jw_buffer w |}), d)
  | None => ((None, w), d)
  end.

(** Writing the events of a list one after the other, keeping the errors. *)
Fixpoint write_all (w : JSONFileWriter_) (events : list Event) (d : Disk)
    : list (option string) * Disk :=
  match events with
  | [] => ([], d)
  | e :: events' =>
      let '(err, d) := JSONFileWriter_Write w e d in
      let '(errs, d) := write_all w events' d in
      (err :: errs, d)
  end.
End JSON.

(** ** Definitions used to state further properties *)

(** An option of [New] as the package offers them: a level or a writer. *)
Definition option_of (o : Level + Writer) : Option_ :=
  match o with
  | inl l => WithLevel l
  | inr wr => WithWriter wr
  end.

(** The events an accepted dispatch hands to the writers of a tracer. *)
Definition fan_out (t : TracerImpl) (event : Event) : list (Writer * Event) :=
  map (fun wr => (wr, event)) (writers t).

(** Source and caller location of an event are the same place. *)
Definition same_location (e : Event) : Prop :=
  SourceFile e = CallerFile e /\ SourceLine e = CallerLine e /\
  SourceFunction e = CallerFunction e.

(** The file-name fragments [isInternalFile] looks for. *)
Definition internal_markers : list string :=
  ["/usr/local/go/src/"; "/usr/lib/go/src/"; "lens.go"; "tracer.go"].

(** A disk on which every call succeeds, and a codec standing in for
    package json in concrete runs: it writes the event id and takes the
    current directory for every path.  General statements hold for any
    codec. *)
Definition disk_ok : Disk := {| os_error := fun _ => None; os_calls := [] |}.

Definition id_codec : JSONLib :=
  {| json_Marshal := fun e => inl (ID e); filepath_Dir := fun _ => "." |}.

(** The write a successful [Write] of [event] makes on [file]. *)
Definition line_write `{JSONLib} (file : nat) (event : Event) : option OsCall :=
  match json_Marshal event with
  | inl data => Some (OsWrite file (data +:+ String (ascii_of_nat 10) ""))
  | inr _ => None
  end.

(** An event located at [line] of [file]. *)
Definition located_event (file : string) (line : Z) : Event := {|
  ID := "evt_3"; TraceID := "trace_3"; Timestamp := clock_fine 2;
  Type_ := EventFunctionCall; Component := ""; Function := "main.add";
  Variable_ := ""; OldValue := VNil; NewValue := VNil; Arguments := [];
  ReturnValue := []; Error := ""; Duration := 0; StackTrace := []; Goroutine := 1;
  SourceFile := file; SourceLine := line; SourceFunction := "main.main";
  CallerFile := file; CallerLine := line; CallerFunction := "main.main" |}.

(** The world of the console tracer after [Disable]. *)
Definition world_off : World := (Disable world_fine).2.

(** Unfolding the plumbing of [M]. *)
Ltac run_M :=
  unfold mbind, M_bind, mret, M_ret, get_tracer, modify_tracer; simpl.

(** ** Loops *)

Lemma range_returns_Exists {A} (p : A -> bool) (xs : list A) :
  range_returns p xs = true <-> Exists (fun x => p x = true) xs.
Proof.
  induction xs as [|x xs IH]; simpl.
  - split; [discriminate | intros Hex; inversion Hex].
  - destruct (p x) eqn:Hp.
    + split; [intros _; now left | reflexivity].
    + rewrite IH. split; [intros Hex; now right |].
      intros Hex. inversion Hex; subst; [congruence | assumption].
Qed.

Lemma range_returns_none {A} (p : A -> bool) (xs : list A) :
  range_returns p xs = false <-> Forall (fun x => p x = false) xs.
Proof.
  induction xs as [|x xs IH]; simpl.
  - split; [constructor | reflexivity].
  - destruct (p x) eqn:Hp.
    + split; [discriminate |]. intros Hall. inversion Hall; subst. congruence.
    + rewrite IH. split; [now constructor | intros Hall; now inversion Hall].
Qed.

(** The loop stops at the first element on which its body returns. *)
Lemma range_visited_split {A} (p : A -> bool) (xs : list A) :
  (range_returns p xs = false /\ range_visited p xs = xs) \/
  (exists pre x post,
      xs = pre ++ x :: post /\ Forall (fun y => p y = false) pre /\ p x = true /\
      range_returns p xs = true /\ range_visited p xs = pre ++ [x]).
Proof.
  induction xs as [|x xs IH]; simpl.
  - now left.
  - destruct (p x) eqn:Hp.
    + right. exists [], x, xs. repeat split; auto.
    + destruct IH as [[Hr Hv] | (pre & y & post & -> & Hpre & Hy & Hr & Hv)].
      * left. split; [assumption | now rewrite Hv].
      * right. exists (x :: pre), y, post. rewrite Hv. repeat split; auto.
Qed.

(** ** The filter chain *)

Section FilterFacts.
Context {matcher : PathMatcher}.

Lemma ShouldTrace_composite (fs : list Filter) (event : Event) :
  ShouldTrace (FComposite fs) event = forallb (fun g => ShouldTrace g event) fs.
Proof.
  simpl. induction fs as [|g fs IH]; simpl; [reflexivity |].
  destruct (ShouldTrace g event); simpl; [exact IH | reflexivity].
Qed.

(** C7.  A composite filter accepts an event exactly when every sub-filter
    accepts it, for any list of sub-filters (user-written ones and nested
    composites included), and its loop stops at the first sub-filter that
    rejects: either all accept and all were consulted, or the filters
    consulted are those before the first rejecting one, followed by it. *)
Theorem CompositeFilter_conjunction (fs : list Filter) (event : Event) :
  (CompositeFilter_ShouldTrace fs event = true <->
     Forall (fun g => ShouldTrace g event = true) fs) /\
  CompositeFilter_ShouldTrace fs event = forallb (fun g => ShouldTrace g event) fs /\
  ((CompositeFilter_ShouldTrace fs event = true /\
    CompositeFilter_consulted fs event = fs) \/
   (exists pre g post,
      fs = pre ++ g :: post /\
      Forall (fun g' => ShouldTrace g' event = true) pre /\
      ShouldTrace g event = false /\
      CompositeFilter_ShouldTrace fs event = false /\
      CompositeFilter_consulted fs event = pre ++ [g])).
Proof.
  unfold CompositeFilter_ShouldTrace, CompositeFilter_consulted.
  split; [| split].
  - rewrite ShouldTrace_composite, forallb_forall, Forall_forall.
    split; intros Hall g Hg; apply Hall; [now apply list_elem_of_In | now apply list_elem_of_In].
  - apply ShouldTrace_composite.
  - simpl.
    destruct (range_visited_split (fun g => negb (ShouldTrace g event)) fs)
      as [[Hr Hv] | (pre & g & post & Hfs & Hpre & Hg & Hr & Hv)].
    + left. rewrite Hr. now split.
    + right. exists pre, g, post. rewrite Hr. repeat split; auto.
      * eapply Forall_impl; [exact Hpre |]. intros g'. simpl. now destruct (ShouldTrace g' event).
      * now destruct (ShouldTrace g event).
Qed.

(** C8.  The package filter decides in this order: an empty component is
    accepted; otherwise a component matched by an exclude pattern is
    rejected; otherwise an empty include list accepts; otherwise the event
    is accepted exactly when an include pattern matches.  In particular an
    empty include list and an exclude list without a match accept every
    event whose component is not empty. *)
Theorem PackageFilter_order (f : PackageFilter) (event : Event) :
  let excluded := Exists (fun p => matched (Component event) p = true) (pkg_excludePatterns f) in
  let included := Exists (fun p => matched (Component event) p = true) (pkg_includePatterns f) in
  (Component event = "" -> PackageFilter_ShouldTrace f event = true) /\
  (Component event <> "" -> excluded -> PackageFilter_ShouldTrace f event = false) /\
  (Component event <> "" -> ~ excluded -> pkg_includePatterns f = [] ->
     PackageFilter_ShouldTrace f event = true) /\
  (Component event <> "" -> ~ excluded -> pkg_includePatterns f <> [] ->
     (PackageFilter_ShouldTrace f event = true <-> included)).
Proof.
  intros excluded included. unfold PackageFilter_ShouldTrace.
  destruct (String.eqb_spec (Component event) "") as [Hc | Hc].
  { repeat split; congruence. }
  destruct (range_returns (matched (Component event)) (pkg_excludePatterns f)) eqn:Hex.
  { apply range_returns_Exists in Hex. repeat split; try reflexivity; contradiction. }
  assert (Hnex : ~ excluded).
  { intros Hx. apply range_returns_Exists in Hx. congruence. }
  destruct (pkg_includePatterns f) as [|p ps] eqn:Hinc; simpl length; simpl Nat.eqb.
  { repeat split; try reflexivity; congruence. }
  destruct (range_returns (matched (Component event)) (p :: ps)) eqn:Hin.
  - apply range_returns_Exists in Hin.
    repeat split; try reflexivity; try contradiction; try congruence; auto.
  - assert (Hnin : ~ included).
    { intros Hx. apply range_returns_Exists in Hx. congruence. }
    repeat split; try contradiction; try congruence.
Qed.
End FilterFacts.

(** ** Dispatch *)

Section DispatchFacts.
Context {matcher : PathMatcher}.

(** What [TraceEvent] does to the world: it records the event and, when
    the tracer is enabled and no filter rejects, starts one write per
    writer. *)
Lemma TraceEvent_eq (event : Event) (w : World) :
  TraceEvent event w =
  (tt, start_writes
         (if enabled (tracer w) &&
             negb (range_returns (fun f => negb (ShouldTrace f event)) (filters (tracer w)))
          then map (fun wr => (wr, event)) (writers (tracer w)) else [])
         (record_dispatch event w)).
Proof.
  unfold TraceEvent. simpl.
  destruct (enabled (tracer w)); simpl.
  - destruct (range_returns _ (filters (tracer w))); simpl; [| reflexivity].
    unfold start_writes. simpl. now rewrite app_nil_r.
  - unfold start_writes. simpl. now rewrite app_nil_r.
Qed.

Lemma TraceEvent_dispatched (event : Event) (w : World) :
  dispatched (TraceEvent event w).2 = dispatched w ++ [event].
Proof. now rewrite TraceEvent_eq. Qed.

Lemma TraceEvent_time (event : Event) (w : World) :
  clock (TraceEvent event w).2 = clock w /\ ticks (TraceEvent event w).2 = ticks w /\
  numGoroutine (TraceEvent event w).2 = numGoroutine w /\
  tracer (TraceEvent event w).2 = tracer w.
Proof. now rewrite TraceEvent_eq. Qed.

(** C6.  The level is stored by [SetLevel] and read by nothing in
    [TraceEvent]: two tracers that agree on the enabled flag, the writers
    and the filters reject or accept every event alike and start the same
    writes, whatever their levels; so changing the level of a tracer
    changes no dispatch. *)
Theorem level_not_consulted (event : Event) (w : World) (t1 t2 : TracerImpl) (l : Level) :
  enabled t1 = enabled t2 -> writers t1 = writers t2 -> filters t1 = filters t2 ->
  let r1 := (TraceEvent event (set_tracer t1 w)).2 in
  let r2 := (TraceEvent event (set_tracer t2 w)).2 in
  let stored := (SetLevel l w).2 in
  range_returns (fun f => negb (ShouldTrace f event)) (filters t1) =
    range_returns (fun f => negb (ShouldTrace f event)) (filters t2) /\
  writes r1 = writes r2 /\ dispatched r1 = dispatched r2 /\
  r1 = set_tracer t1 r2 /\
  level (tracer stored) = l /\
  writes (TraceEvent event stored).2 = writes (TraceEvent event w).2 /\
  dispatched (TraceEvent event stored).2 = dispatched (TraceEvent event w).2.
Proof.
  intros He Hw Hf r1 r2 stored. subst r1 r2 stored.
  rewrite !TraceEvent_eq. simpl. rewrite He, Hw, Hf. repeat split.
Qed.
End DispatchFacts.

(** ** Spans *)

Section SpanFacts.
Context {matcher : PathMatcher}.

Lemma End_SetTag (s : SpanImpl) (key : string) (value : Val) :
  End (SetTag s key value) = End s.
Proof. reflexivity. Qed.

(** C9.  Tags never reach an event: whatever tags are set on a span, in
    whatever order, [End] reads the same clock, hands the same event to
    the tracer and leaves the same world as on the span without them. *)
Theorem SetTag_unobservable (s : SpanImpl) (tags : list (string * Val)) (w : World) :
  End (fold_left (fun s' kv => SetTag s' kv.1 kv.2) tags s) w = End s w.
Proof.
  revert s. induction tags as [|[k v] tags IH]; intros s; simpl.
  - reflexivity.
  - rewrite IH. now rewrite End_SetTag.
Qed.
End SpanFacts.

(** ** Wrapping values that are not functions *)

Section WrapFacts.
Context {matcher : PathMatcher}.

Lemma WrapWithName_not_func (stk : list Frame) (obj : Obj) (name : string) (w : World) :
  TypeOf_Kind obj <> Some Func -> WrapWithName stk obj name w = (obj, w).
Proof.
  intros Hk. unfold WrapWithName. run_M.
  destruct (enabled (tracer w)); [| reflexivity]. simpl.
  destruct obj as [|k v|addr ms|fs ms|f|v|es|es|c]; try reflexivity.
  - now destruct k.
  - unfold wrapPointer. now destruct (IsNil _).
  - now contradiction Hk.
Qed.

Lemma WrapWithName_disabled (stk : list Frame) (obj : Obj) (name : string) (w : World) :
  enabled (tracer w) = false -> WrapWithName stk obj name w = (obj, w).
Proof. intros He. unfold WrapWithName. run_M. now rewrite He. Qed.

(** C10.  A value that is not a function (nil, a basic value, a slice, a
    map, a channel, an interface, a struct, a pointer) comes back from
    [WrapWithName] and from [Wrap] as it went in, and the world is the
    same afterwards: nothing was dispatched or written.  The same holds
    for every value when the tracer is disabled. *)
Theorem WrapWithName_passthrough (stk : list Frame) (obj : Obj) (name : string) (w : World) :
  TypeOf_Kind obj <> Some Func \/ enabled (tracer w) = false ->
  WrapWithName stk obj name w = (obj, w) /\ Wrap stk obj w = (obj, w).
Proof.
  intros [Hk | He]; unfold Wrap.
  - split; now apply WrapWithName_not_func.
  - split; now apply WrapWithName_disabled.
Qed.
End WrapFacts.

(** ** Identifiers *)

Lemma fmt_d_inj (a b : Z) : fmt_d a = fmt_d b -> a = b.
Proof.
  unfold fmt_d. intros Heq.
  assert (Hnn : forall z, Z.to_int z <> Decimal.Pos Decimal.Nil /\
                          Z.to_int z <> Decimal.Neg Decimal.Nil).
  { intros [|p|p]; simpl; split; try discriminate;
      intros [= Hp]; now apply DecimalPos.Unsigned.to_uint_nonnil in Hp. }
  apply DecimalZ.to_int_inj.
  assert (Hs : Some (Z.to_int a) = Some (Z.to_int b)); [| congruence].
  rewrite <- (NilZero.isi (Z.to_int a)), <- (NilZero.isi (Z.to_int b)) by apply Hnn.
  now rewrite Heq.
Qed.

(** C5, as the code has it.  An identifier is a prefix followed by the
    [UnixNano] reading of the clock, so two calls of the event-id generator
    return the same identifier exactly when they read the same [UnixNano]
    value, and likewise for the trace-id generator; an event id never equals
    a trace id. *)
Theorem generated_ids_differ_iff (w w' : World) :
  ((generateEventID w).1 = (generateEventID w').1 <->
     wall (reading w) = wall (reading w')) /\
  ((generateTraceID w).1 = (generateTraceID w').1 <->
     wall (reading w) = wall (reading w')) /\
  (generateEventID w).1 <> (generateTraceID w').1.
Proof.
  unfold generateEventID, generateTraceID, time_Now, reading. run_M.
  repeat split; try (intros ->; reflexivity); try discriminate.
  - intros [= Heq]. now apply fmt_d_inj.
  - intros [= Heq]. now apply fmt_d_inj.
Qed.

(** ** Wrapped functions *)

Section WrapperFacts.
Context {matcher : PathMatcher}.

(** Runs the wrapper up to the call of the original and names the call
    event and the world in which the original starts. *)
Ltac enter_wrapper :=
  unfold wrapFunction_func1, generateTraceID, generateEventID, time_Since, time_Now,
    getGoroutineID, reading;
  run_M; rewrite TraceEvent_eq; simpl;
  match goal with
  | |- context [func_call _ _ _ ?w1] =>
      match w1 with
      | context [record_dispatch ?e _] => exists e, w1
      end
  end.

(** Runs the wrapper after the original has returned. *)
Ltac leave_wrapper Hcall :=
  unfold callee_stack in Hcall; rewrite Hcall; rewrite TraceEvent_eq; simpl;
  eexists _, _; split; [reflexivity |]; simpl.

(** C4, as the code has it.  Around a call of the original that returns,
    the wrapper dispatches one call event before it starts and one return
    event after it has returned.  Both carry the trace id generated at the
    start of this invocation, which another invocation shares exactly when
    it starts on the same [UnixNano] reading.  The duration runs from a
    reading taken before the original starts to one taken after it has
    returned: on a monotonic clock it is not negative and not smaller than
    the time between any two instants of the original's run. *)
Theorem wrapFunction_success (f : FuncValue) (name : string)
    (sl cl : SourceLocation) (stk : list Frame) (args : list Val) (w : World) :
  exists callEvent w1,
    dispatched w1 = dispatched w ++ [callEvent] /\
    clock w1 = clock w /\ ticks w1 = (ticks w + 4)%nat /\
    Type_ callEvent = EventFunctionCall /\
    TraceID callEvent = (generateTraceID w).1 /\
    (forall w', (generateTraceID w').1 = TraceID callEvent <->
                wall (reading w') = wall (reading w)) /\
    forall rs w2,
      func_call f (callee_stack stk) args w1 = (Returned rs, w2) ->
      exists retEvent w3,
        wrapFunction_func1 f name sl cl stk args w = (Returned rs, w3) /\
        dispatched w3 = dispatched w2 ++ [retEvent] /\
        Type_ retEvent = EventFunctionReturn /\
        TraceID retEvent = TraceID callEvent /\
        ReturnValue retEvent = rs /\
        (monotonic (clock w) -> clock w2 = clock w -> (ticks w1 <= ticks w2)%nat ->
         0 <= Duration retEvent /\
         forall i j : nat, (ticks w1 <= i)%nat -> (i <= j)%nat -> (j <= ticks w2)%nat ->
           mono (clock w j) - mono (clock w i) <= Duration retEvent).
Proof.
  enter_wrapper.
  do 2 (split; [reflexivity |]).
  split; [simpl; f_equal; lia |].
  do 2 (split; [reflexivity |]).
  split.
  { intros w'. simpl. split.
    - intros [= Heq]. now apply fmt_d_inj in Heq.
    - intros Heq. now rewrite Heq. }
  intros rs w2 Hcall. leave_wrapper Hcall.
  do 4 (split; [reflexivity |]).
  intros Hm Hc Ht. simpl in Ht |- *. rewrite Hc.
  assert (Hstart : mono (clock w (S (S (S (ticks w))))) <= mono (clock w (ticks w2))).
  { apply Hm. lia. }
  split; [lia |].
  intros i j Hi Hij Hj.
  assert (mono (clock w j) <= mono (clock w (ticks w2))) by (apply Hm; lia).
  assert (mono (clock w (S (S (S (ticks w))))) <= mono (clock w i)) by (apply Hm; lia).
  lia.
Qed.

(** C3, as the code has it.  When the original returns an error among its
    results, the wrapper has dispatched one call event before the call and
    dispatches one terminal event after it, with the same trace id; the
    terminal event is a function-return event, not an error event: its
    error text is empty and the error sits among its return values.  The
    results reach the caller as the original returned them, and the value
    of a panic reaches the caller as the original raised it. *)
Theorem wrapFunction_failure (f : FuncValue) (name : string)
    (sl cl : SourceLocation) (stk : list Frame) (args : list Val) (w : World) :
  exists callEvent w1,
    dispatched w1 = dispatched w ++ [callEvent] /\
    Type_ callEvent = EventFunctionCall /\
    (forall rs w2,
       func_call f (callee_stack stk) args w1 = (Returned rs, w2) ->
       Exists (fun v => is_error v = true) rs ->
       exists retEvent w3,
         wrapFunction_func1 f name sl cl stk args w = (Returned rs, w3) /\
         dispatched w3 = dispatched w2 ++ [retEvent] /\
         TraceID retEvent = TraceID callEvent /\
         Type_ retEvent = EventFunctionReturn /\
         Type_ retEvent <> EventError /\
         Error retEvent = "" /\
         ReturnValue retEvent = rs) /\
    (forall v w2,
       func_call f (callee_stack stk) args w1 = (Panicked v, w2) ->
       (wrapFunction_func1 f name sl cl stk args w).1 = Panicked v).
Proof.
  enter_wrapper.
  do 2 (split; [reflexivity |]).
  split.
  - intros rs w2 Hcall _. leave_wrapper Hcall.
    do 3 (split; [reflexivity |]).
    split; [discriminate |]. now split.
  - intros v w2 Hcall. unfold callee_stack in Hcall. now rewrite Hcall.
Qed.

(** The locations in the events of a wrapper are the two captured by
    [wrapFunction]; the stack of the call has no part in them. *)
Lemma wrapFunction_locations (f : FuncValue) (name : string)
    (sl cl : SourceLocation) (stk : list Frame) (args : list Val) (w : World) :
  let at_capture (e : Event) :=
    {| File := SourceFile e; Line := SourceLine e; Function_ := SourceFunction e |} = sl /\
    {| File := CallerFile e; Line := CallerLine e; Function_ := CallerFunction e |} = cl in
  exists callEvent w1,
    dispatched w1 = dispatched w ++ [callEvent] /\
    at_capture callEvent /\
    forall rs w2,
      func_call f (callee_stack stk) args w1 = (Returned rs, w2) ->
      exists retEvent w3,
        wrapFunction_func1 f name sl cl stk args w = (Returned rs, w3) /\
        dispatched w3 = dispatched w2 ++ [retEvent] /\
        at_capture retEvent.
Proof.
  intros at_capture. subst at_capture.
  enter_wrapper.
  split; [reflexivity |].
  split; [now destruct sl, cl |].
  intros rs w2 Hcall. leave_wrapper Hcall.
  split; [reflexivity |]. now destruct sl, cl.
Qed.
End WrapperFacts.

(** ** The code on concrete inputs *)

(** [WrapWithName] reaches [wrapFunction] with function values only. *)
Lemma Func_kind_inv (obj : Obj) :
  TypeOf_Kind obj = Some Func -> exists f, obj = OFunc f.
Proof.
  destruct obj as [|k v|addr ms|fs ms|f|v|es|es|c]; try discriminate.
  - now destruct k.
  - intros _. now exists f.
Qed.

(** [add(2, 3)] through its wrapper: the call event has the arguments, the
    return event the result. *)
Example add_2_3_events :
  firstn 2 (map Arguments (dispatched run_add_fine.2)) = [[VInt 2; VInt 3]; []] /\
  firstn 2 (map ReturnValue (dispatched run_add_fine.2)) = [[]; [VInt 5]] /\
  firstn 2 (map Duration (dispatched run_add_fine.2)) = [0; 1000].
Proof. vm_compute. repeat split. Qed.

(** A call of [noisyHelper] under the filter [ExcludeFunctions("noisy*")]
    starts no write; a call of another function starts one. *)
Example noisy_call_not_written :
  writes (TraceEvent (matcher := glob_matcher) (call_event "" "noisyHelper") quiet_world).2 = [] /\
  map fst (writes (TraceEvent (matcher := glob_matcher) (call_event "" "helper") quiet_world).2)
    = [ConsoleWriter true].
Proof. vm_compute. split; reflexivity. Qed.

(** [TraceVariable("x", 1, 2)] dispatches one variable-write event. *)
Example trace_variable_event :
  map (fun e => (Type_ e, Variable_ e, OldValue e, NewValue e, SourceLine e))
    (dispatched (TraceVariable (matcher := glob_matcher) (main_at 50) "x" (VInt 1) (VInt 2)
                   world_fine).2)
  = [(EventVariableWrite, "x", VInt 1, VInt 2, 50)].
Proof. vm_compute. reflexivity. Qed.

(** The duration filter lets an event without duration and an event at the
    threshold pass, and stops one below it. *)
Example duration_filter_threshold :
  DurationFilter_ShouldTrace (NewDurationFilter 500) (timed_event 0) = true /\
  DurationFilter_ShouldTrace (NewDurationFilter 500) (timed_event 500) = true /\
  DurationFilter_ShouldTrace (NewDurationFilter 500) (timed_event 499) = false.
Proof. repeat split. Qed.

(** A composite whose second sub-filter rejects never consults the third. *)
Example composite_stops_at_rejection :
  CompositeFilter_consulted (matcher := glob_matcher)
    [FDuration (NewDurationFilter 500);
     FFunction (ExcludeFunctions NewFunctionFilter ["main.*"]);
     CustomFilter (fun _ => true)]
    (timed_event 700)
  = [FDuration (NewDurationFilter 500);
     FFunction (ExcludeFunctions NewFunctionFilter ["main.*"])].
Proof. reflexivity. Qed.

Lemma clock_fine_monotonic : monotonic clock_fine.
Proof. intros i j Hij. unfold clock_fine. simpl. lia. Qed.

(** C1: a [*Calculator] handed to [WrapWithName] comes back as it is, and
    calling [Add] on what came back dispatches no event at all. *)
Theorem WrapWithName_object_not_proxied :
  run_calculator = ((calculator, Returned [VInt 5]), world_fine) /\
  dispatched run_calculator.2 = [] /\
  writes run_calculator.2 = [].
Proof. repeat split. Qed.

(** C2: [add] is wrapped at line 10 and called at lines 20 and 30; all four
    events carry line 10, the place of the wrapping.  The method wrapper,
    called at line 20, carries line 20. *)
Theorem wrapped_location_is_wrap_site :
  run_add_fine.1 = [Returned [VInt 5]; Returned [VInt 9]] /\
  map SourceLine (dispatched run_add_fine.2) = [10; 10; 10; 10] /\
  map CallerLine (dispatched run_add_fine.2) = [10; 10; 10; 10] /\
  map SourceLine (dispatched run_method_wrapper.2) = [20; 20] /\
  map CallerLine (dispatched run_method_wrapper.2) = [20; 20].
Proof. vm_compute. repeat split. Qed.

(** C3 fails on the code: [div] returns an error and [mustDiv] panics, and
    in neither run is an event of kind error dispatched.  The first run
    ends with a function-return event, the second with no terminal event. *)
Lemma wrapFunction_no_error_event :
  run_div_by_zero.1 = [Returned [VInt 0; VErr "division by zero"]] /\
  map Type_ (dispatched run_div_by_zero.2) = [EventFunctionCall; EventFunctionReturn] /\
  map Error (dispatched run_div_by_zero.2) = [""; ""] /\
  run_mustDiv_by_zero.1 = [Panicked (VErr "division by zero")] /\
  map Type_ (dispatched run_mustDiv_by_zero.2) = [EventFunctionCall].
Proof. vm_compute. repeat split. Qed.

(** C4 fails on the code: on a clock whose reading does not change between
    two invocations, both invocations of the wrapped [add] carry the same
    trace id. *)
Lemma wrapFunction_trace_id_shared :
  run_add_coarse.1 = [Returned [VInt 5]; Returned [VInt 9]] /\
  map TraceID (dispatched run_add_coarse.2) =
    ["trace_1759436509286000000"; "trace_1759436509286000000";
     "trace_1759436509286000000"; "trace_1759436509286000000"] /\
  map Arguments (dispatched run_add_coarse.2) =
    [[VInt 2; VInt 3]; []; [VInt 4; VInt 5]; []].
Proof. vm_compute. repeat split. Qed.

(** C5 fails on the code: two calls of a generator in a row, on a clock
    whose reading has not changed, return the same identifier. *)
Lemma generated_ids_collide :
  (generateEventID world_coarse).1 = (generateEventID (generateEventID world_coarse).2).1 /\
  (generateTraceID world_coarse).1 = (generateTraceID (generateTraceID world_coarse).2).1 /\
  ticks (generateEventID world_coarse).2 <> ticks world_coarse.
Proof. vm_compute. repeat split. discriminate. Qed.

Lemma level_not_consulted_witness :
  writes (TraceEvent (matcher := glob_matcher) (call_event "main" "main.add")
            (set_tracer console_tracer world_fine)).2 =
  writes (TraceEvent (matcher := glob_matcher) (call_event "main" "main.add")
            (set_tracer (WithLevel LevelOff console_tracer) world_fine)).2.
Proof.
  destruct (level_not_consulted (matcher := glob_matcher) (call_event "main" "main.add")
              world_fine console_tracer (WithLevel LevelOff console_tracer) LevelOff)
    as (_ & Hw & _); [reflexivity | reflexivity | reflexivity | exact Hw].
Defined.

Lemma PackageFilter_order_witness :
  Component (call_event "main" "main.add") <> "" /\
  ~ Exists (fun p => matched (matcher := glob_matcher)
                       (Component (call_event "main" "main.add")) p = true)
      (pkg_excludePatterns (ExcludePackages NewPackageFilter ["vendor*"])) /\
  pkg_includePatterns (ExcludePackages NewPackageFilter ["vendor*"]) = [] /\
  PackageFilter_ShouldTrace (matcher := glob_matcher)
    (ExcludePackages NewPackageFilter ["vendor*"]) (call_event "main" "main.add") = true.
Proof.
  assert (Hc : Component (call_event "main" "main.add") <> "") by (simpl; discriminate).
  assert (Hx : ~ Exists (fun p => matched (matcher := glob_matcher)
                                   (Component (call_event "main" "main.add")) p = true)
                 (pkg_excludePatterns (ExcludePackages NewPackageFilter ["vendor*"]))).
  { simpl. intros Hx. apply Exists_cons in Hx as [Hx | Hx]; [discriminate Hx | inversion Hx]. }
  split; [exact Hc |]. split; [exact Hx |]. split; [reflexivity |].
  exact (proj1 (proj2 (proj2 (PackageFilter_order (matcher := glob_matcher)
           (ExcludePackages NewPackageFilter ["vendor*"]) (call_event "main" "main.add"))))
           Hc Hx eq_refl).
Defined.

Lemma WrapWithName_passthrough_witness :
  TypeOf_Kind (OSlice [VInt 1; VInt 2]) <> Some Func /\
  WrapWithName (matcher := glob_matcher) (main_at 10) (OSlice [VInt 1; VInt 2]) "xs" world_fine =
    (OSlice [VInt 1; VInt 2], world_fine).
Proof.
  assert (Hk : TypeOf_Kind (OSlice [VInt 1; VInt 2]) <> Some Func) by (simpl; discriminate).
  split; [exact Hk |].
  exact (proj1 (WrapWithName_passthrough (matcher := glob_matcher) (main_at 10)
                  (OSlice [VInt 1; VInt 2]) "xs" world_fine (or_introl Hk))).
Defined.

Lemma wrapFunction_success_witness :
  monotonic (clock world_fine) /\
  exists retEvent w3,
    wrapFunction_func1 (matcher := glob_matcher) add "" SourceLocation_zero
      SourceLocation_zero (main_at 20) [VInt 2; VInt 3] world_fine = (Returned [VInt 5], w3) /\
    Type_ retEvent = EventFunctionReturn /\
    ReturnValue retEvent = [VInt 5] /\
    0 <= Duration retEvent.
Proof.
  split; [exact clock_fine_monotonic |].
  destruct (wrapFunction_success (matcher := glob_matcher) add "" SourceLocation_zero
              SourceLocation_zero (main_at 20) [VInt 2; VInt 3] world_fine)
    as (callEvent & w1 & _ & Hc & _ & _ & _ & _ & Hret).
  destruct (Hret [VInt 5] w1 eq_refl) as (retEvent & w3 & Hrun & _ & Hty & _ & Hrv & Hdur).
  exists retEvent, w3.
  split; [exact Hrun |]. split; [exact Hty |]. split; [exact Hrv |].
  exact (proj1 (Hdur clock_fine_monotonic Hc (le_n _))).
Defined.

Lemma wrapFunction_failure_witness :
  Exists (fun v => is_error v = true) [VInt 0; VErr "division by zero"] /\
  exists retEvent w3,
    wrapFunction_func1 (matcher := glob_matcher) div "" SourceLocation_zero
      SourceLocation_zero (main_at 20) [VInt 1; VInt 0] world_fine =
      (Returned [VInt 0; VErr "division by zero"], w3) /\
    Type_ retEvent = EventFunctionReturn /\
    Error retEvent = "".
Proof.
  assert (He : Exists (fun v => is_error v = true) [VInt 0; VErr "division by zero"]).
  { apply Exists_cons_tl, Exists_cons_hd. reflexivity. }
  split; [exact He |].
  destruct (wrapFunction_failure (matcher := glob_matcher) div "" SourceLocation_zero
              SourceLocation_zero (main_at 20) [VInt 1; VInt 0] world_fine)
    as (callEvent & w1 & _ & _ & Hret & _).
  destruct (Hret [VInt 0; VErr "division by zero"] w1 eq_refl He)
    as (retEvent & w3 & Hrun & _ & _ & Hty & _ & Herr & _).
  exists retEvent, w3.
  split; [exact Hrun |]. split; [exact Hty | exact Herr].
Defined.

(** * Further properties of the code *)

(** ** Dispatch and configuration *)

Lemma range_returns_app {A} (p : A -> bool) (xs ys : list A) :
  range_returns p (xs ++ ys) = range_returns p xs || range_returns p ys.
Proof.
  induction xs as [|x xs IH]; simpl; [reflexivity |].
  destruct (p x); [reflexivity | exact IH].
Qed.

Section DispatchMore.
Context {matcher : PathMatcher}.

Lemma chain_accepts (fs : list Filter) (event : Event) :
  negb (range_returns (fun f => negb (ShouldTrace f event)) fs) =
  forallb (fun f => ShouldTrace f event) fs.
Proof. exact (ShouldTrace_composite fs event). Qed.

Lemma TraceEvent_writes (event : Event) (w : World) :
  writes (TraceEvent event w).2 =
  writes w ++
  (if enabled (tracer w) && forallb (fun f => ShouldTrace f event) (filters (tracer w))
   then fan_out (tracer w) event else []).
Proof. rewrite TraceEvent_eq. simpl. now rewrite chain_accepts. Qed.

(** X1.  An event handed to [TraceEvent] reaches the writers exactly when
    the tracer is enabled and every filter accepts it; then one write is
    started per registered writer, in registration order, each with that
    event.  Configuration, clock and earlier writes are left as they were,
    and the result is the same as with the single filter that composes the
    chain. *)
Theorem TraceEvent_fanout (event : Event) (w : World) :
  let accepted :=
    enabled (tracer w) && forallb (fun f => ShouldTrace f event) (filters (tracer w)) in
  let w' := (TraceEvent event w).2 in
  writes w' = writes w ++ (if accepted then fan_out (tracer w) event else []) /\
  length (writes w') =
    (length (writes w) + if accepted then length (writers (tracer w)) else 0)%nat /\
  tracer w' = tracer w /\ ticks w' = ticks w /\
  writes (TraceEvent event
            (set_tracer {| level := level (tracer w); enabled := enabled (tracer w);
                           writers := writers (tracer w);
                           filters := [FComposite (filters (tracer w))] |} w)).2 = writes w'.
Proof.
  intros accepted w'. subst w'. rewrite !TraceEvent_writes.
  split; [reflexivity |].
  split; [| split; [| split]].
  - fold accepted. rewrite length_app. unfold fan_out.
    destruct accepted; [now rewrite length_map | reflexivity].
  - now rewrite TraceEvent_eq.
  - now rewrite TraceEvent_eq.
  - simpl. rewrite chain_accepts, andb_true_r. reflexivity.
Qed.

(** X2.  A filter added with [AddFilter] can only take writes away: after
    it, an event is written as before when the new filter accepts it and not
    at all when it rejects. *)
Theorem AddFilter_restricts (f : Filter) (event : Event) (w : World) :
  writes (TraceEvent event (AddFilter f w).2).2 =
  if ShouldTrace f event then writes (TraceEvent event w).2 else writes w.
Proof.
  rewrite !TraceEvent_writes. unfold AddFilter, fan_out. run_M.
  rewrite forallb_app. simpl. rewrite andb_true_r.
  destruct (ShouldTrace f event); [now rewrite andb_true_r |].
  rewrite !andb_false_r. apply app_nil_r.
Qed.

(** X3.  A writer added with [AddWriter] comes last: an accepted event is
    written to the earlier writers as before and then to the new one.
    Registering a writer that is already registered makes it receive every
    accepted event once more. *)
Theorem AddWriter_appends (wr : Writer) (event : Event) (w : World) :
  let accepted :=
    enabled (tracer w) && forallb (fun f => ShouldTrace f event) (filters (tracer w)) in
  writes (TraceEvent event (AddWriter wr w).2).2 =
  writes (TraceEvent event w).2 ++ (if accepted then [(wr, event)] else []).
Proof.
  intros accepted. rewrite !TraceEvent_writes. unfold AddWriter, fan_out. run_M.
  fold accepted. destruct accepted.
  - now rewrite map_app, app_assoc.
  - now rewrite !app_nil_r.
Qed.

(** X4.  A tracer silenced with [Disable] keeps its wrappers working: a
    wrapper made earlier still calls the original and returns what it
    returned (or panics as it panicked), and starts no write of its own, as
    long as the tracer is still disabled when the original returns. *)
Theorem disabled_wrapper_silent (f : FuncValue) (name : string)
    (sl cl : SourceLocation) (stk : list Frame) (args : list Val) (w : World) :
  enabled (tracer w) = false ->
  exists w1,
    writes w1 = writes w /\ tracer w1 = tracer w /\
    forall outcome w2,
      func_call f (callee_stack stk) args w1 = (outcome, w2) ->
      enabled (tracer w2) = false ->
      (wrapFunction_func1 f name sl cl stk args w).1 = outcome /\
      writes (wrapFunction_func1 f name sl cl stk args w).2 = writes w2 /\
      tracer (wrapFunction_func1 f name sl cl stk args w).2 = tracer w2.
Proof.
  intros Hoff.
  unfold wrapFunction_func1, generateTraceID, generateEventID, time_Since, time_Now,
    getGoroutineID.
  run_M. rewrite TraceEvent_eq. simpl. rewrite Hoff. simpl.
  match goal with
  | |- context [func_call _ _ _ ?w1] => exists w1
  end.
  split; [simpl; apply app_nil_r |]. split; [reflexivity |].
  intros outcome w2 Hcall Hoff2. unfold callee_stack in Hcall. rewrite Hcall.
  destruct outcome as [rs | v]; [| now repeat split].
  rewrite TraceEvent_eq. simpl. rewrite Hoff2. simpl.
  repeat split. apply app_nil_r.
Qed.
End DispatchMore.

(** ** Construction *)

Lemma fold_options (os : list (Level + Writer)) (t : TracerImpl) :
  let t' := fold_left (fun t option => option t) (map option_of os) t in
  level t' = default (level t) (last (omap (fun o => match o with inl l => Some l | inr _ => None end) os)) /\
  writers t' = writers t ++ omap (fun o => match o with inr wr => Some wr | inl _ => None end) os /\
  enabled t' = enabled t /\ filters t' = filters t.
Proof.
  revert t. induction os as [|o os IH]; intros t; simpl.
  - now rewrite app_nil_r.
  - destruct (IH (option_of o t)) as (Hl & Hw & He & Hf).
    rewrite Hl, Hw, He, Hf. destruct o as [l | wr]; simpl.
    + repeat split. rewrite last_cons. now destruct (last _).
    + repeat split. now rewrite <- app_assoc.
Qed.

(** X5.  [New] applies its options from left to right on a tracer that is
    enabled, at level info, without writers or filters: the result has the
    level of the last level option (info when there is none), the writers of
    the writer options in the order given, no filter, and is enabled. *)
Theorem New_options (os : list (Level + Writer)) :
  let t := New (map option_of os) in
  level t =
    default LevelInfo
      (last (omap (fun o => match o with inl l => Some l | inr _ => None end) os)) /\
  writers t = omap (fun o => match o with inr wr => Some wr | inl _ => None end) os /\
  enabled t = true /\ filters t = [].
Proof.
  unfold New.
  destruct (fold_options os
              {| level := LevelInfo; enabled := true; writers := []; filters := [] |})
    as (Hl & Hw & He & Hf).
  simpl in *. now rewrite Hl, Hw, He, Hf.
Qed.

(** ** Composite filters *)

Section CompositeMore.
Context {matcher : PathMatcher}.

(** X6.  Composites nest freely: the empty composite accepts every event,
    a composite of one filter decides as that filter, and a composite of two
    composites decides as the composite of their filters put together. *)
Theorem CompositeFilter_flatten (f : Filter) (fs gs : list Filter) (event : Event) :
  ShouldTrace (NewCompositeFilter []) event = true /\
  ShouldTrace (NewCompositeFilter [f]) event = ShouldTrace f event /\
  ShouldTrace (NewCompositeFilter [NewCompositeFilter fs; NewCompositeFilter gs]) event =
    ShouldTrace (NewCompositeFilter (fs ++ gs)) event /\
  ShouldTrace (NewCompositeFilter (fs ++ gs)) event =
    ShouldTrace (NewCompositeFilter fs) event && ShouldTrace (NewCompositeFilter gs) event.
Proof.
  unfold NewCompositeFilter. rewrite !ShouldTrace_composite.
  split; [reflexivity |]. split; [simpl; apply andb_true_r |].
  rewrite forallb_app. split; [| reflexivity].
  simpl. rewrite !chain_accepts. now rewrite andb_true_r.
Qed.
End CompositeMore.

(** ** Source locations *)

Lemma runtime_Caller_lookup (stack : list Frame) (i : nat) :
  runtime_Caller stack i = stack !! i.
Proof.
  unfold runtime_Caller. revert i.
  induction stack as [|f stack IH]; intros [|i]; simpl; auto.
Qed.

(** The loop of [getSourceLocation] looks for the first frame outside the
    library among the [n] frames from depth [i] on. *)
Lemma scan_frames_find (stack : list Frame) (n i : nat) :
  scan_frames stack n i =
  location_of <$> find (fun f => negb (isInternalFile (frame_file f))) (take n (drop i stack)).
Proof.
  revert i. induction n as [|n IH]; intros i; simpl; [reflexivity |].
  rewrite runtime_Caller_lookup.
  destruct (stack !! i) as [f|] eqn:Hf.
  - rewrite (drop_S _ _ _ Hf). simpl.
    destruct (negb (isInternalFile (frame_file f))); [reflexivity | apply IH].
  - apply lookup_ge_None in Hf. now rewrite drop_ge.
Qed.

Lemma getSourceLocation_eq (stk : list Frame) (k : nat) :
  getSourceLocation stk (S k) =
  match find (fun f => negb (isInternalFile (frame_file f))) (take 10 (drop k stk)) with
  | Some f => location_of f
  | None =>
      match stk !! k with
      | Some f => location_of f
      | None => SourceLocation_zero
      end
  end.
Proof.
  unfold getSourceLocation. rewrite scan_frames_find, runtime_Caller_lookup.
  change (drop (S k) (?f :: stk)) with (drop k stk).
  destruct (find _ _); reflexivity.
Qed.

(** X7.  [getSourceLocation(skip)], for a skip of at least one, returns the
    first frame whose file is not internal among the ten frames that start
    [skip - 1] levels above its caller; when there is none it returns the
    first of these frames as it is, internal or not, and the zero location
    when the stack is not that deep. *)
Theorem getSourceLocation_first_external (stk : list Frame) (k : nat) :
  getSourceLocation stk (S k) =
  match find (fun f => negb (isInternalFile (frame_file f))) (take 10 (drop k stk)) with
  | Some f => location_of f
  | None =>
      match stk !! k with
      | Some f => location_of f
      | None => SourceLocation_zero
      end
  end.
Proof. apply getSourceLocation_eq. Qed.

Lemma getCallerLocation_eq (fr fr' : Frame) (stk : list Frame) (k : nat) :
  getCallerLocation (fr :: stk) (S (S k)) = getSourceLocation (fr' :: stk) (S (S k)).
Proof.
  unfold getCallerLocation.
  replace (S (S k) + 1)%nat with (S (S (S k))) by lia.
  now rewrite !getSourceLocation_eq.
Qed.

(** X8.  For a skip of two or more, [getCallerLocation(skip)] returns what
    [getSourceLocation(skip)] returns when called from the same function:
    the frame that [getCallerLocation] adds to the stack uses up the extra
    level it asks for.  (Every call in the package passes 2.) *)
Theorem getCallerLocation_same_as_source (fr fr' : Frame) (stk : list Frame) (skip : nat) :
  (2 <= skip)%nat ->
  getCallerLocation (fr :: stk) skip = getSourceLocation (fr' :: stk) skip.
Proof.
  intros Hskip. destruct skip as [|[|k]]; [lia | lia |]. apply getCallerLocation_eq.
Qed.

Section LocationsOfEvents.
Context {matcher : PathMatcher}.

(** X9.  In every event of a function wrapped through [WrapWithName] the
    caller location equals the source location, and so it does in the event
    of [TraceVariable]: both are found by the same search of the same
    frames. *)
Theorem events_source_equals_caller (stk call_stk : list Frame) (f : FuncValue)
    (name : string) (args : list Val) (old new : Val) (w : World) :
  enabled (tracer w) = true ->
  (exists g loc,
     (WrapWithName stk (OFunc f) name w).1 = OFunc g /\
     func_call g = wrapFunction_func1 f name loc loc /\
     exists callEvent w1,
       dispatched w1 = dispatched w ++ [callEvent] /\ same_location callEvent /\
       forall rs w2,
         func_call f (callee_stack call_stk) args w1 = (Returned rs, w2) ->
         exists retEvent w3,
           func_call g call_stk args w = (Returned rs, w3) /\
           dispatched w3 = dispatched w2 ++ [retEvent] /\ same_location retEvent) /\
  (exists event,
     dispatched (TraceVariable stk name old new w).2 = dispatched w ++ [event] /\
     same_location event).
Proof.
  intros Hon. split.
  - unfold WrapWithName. run_M. rewrite Hon. simpl.
    eexists _, _. split; [reflexivity |]. simpl.
    rewrite (getCallerLocation_eq _
               (frame "github.com/baretech/lens.(*TracerImpl).wrapFunction" tracer_go 214)).
    split; [reflexivity |].
    match goal with
    | |- context [wrapFunction_func1 f name ?l ?l] =>
        destruct (wrapFunction_locations f name l l call_stk args w)
          as (callEvent & w1 & Hd & [Hs Hc] & Hret)
    end.
    exists callEvent, w1. split; [exact Hd |].
    split.
    { rewrite <- Hc in Hs. injection Hs as H1 H2 H3. now repeat split. }
    intros rs w2 Hcall. destruct (Hret rs w2 Hcall) as (retEvent & w3 & Hrun & Hd3 & Hs3 & Hc3).
    exists retEvent, w3. split; [exact Hrun |]. split; [exact Hd3 |].
    rewrite <- Hc3 in Hs3. injection Hs3 as H1 H2 H3. now repeat split.
  - unfold TraceVariable, generateTraceID, generateEventID, time_Now, getGoroutineID.
    run_M. rewrite TraceEvent_eq. simpl.
    eexists. split; [reflexivity |].
    unfold same_location. simpl.
    rewrite (getCallerLocation_eq _
               (frame "github.com/baretech/lens.(*TracerImpl).TraceVariable" tracer_go 368)).
    now repeat split.
Qed.
End LocationsOfEvents.

(** ** Internal files *)

Lemma prefix_append (s1 s2 : string) :
  String.prefix s1 s2 = true <-> exists post, s2 = s1 +:+ post.
Proof.
  revert s2. induction s1 as [|a s1 IH]; intros s2.
  - split; [intros _; now exists s2 | intros _; now destruct s2].
  - destruct s2 as [|b s2]; simpl.
    + split; [discriminate | intros [post Hp]; discriminate Hp].
    + destruct (Ascii.ascii_dec a b) as [-> | Hne].
      * rewrite IH. split; intros [post Hp]; exists post; [now rewrite Hp | now injection Hp].
      * split; [discriminate |]. intros [post Hp]. injection Hp as Hab _. congruence.
Qed.

(** [strings.Contains] finds a substring wherever it lies. *)
Lemma strings_Contains_iff (s substr : string) :
  strings_Contains s substr = true <-> exists pre post, s = pre +:+ substr +:+ post.
Proof.
  induction s as [|a s IH]; cbn [strings_Contains].
  - rewrite orb_false_r, prefix_append. split.
    + intros [post Hp]. now exists "", post.
    + intros (pre & post & Hp). destruct pre; [now exists post | discriminate Hp].
  - rewrite orb_true_iff, prefix_append, IH. split.
    + intros [[post Hp] | (pre & post & Hp)].
      * now exists "", post.
      * exists (String a pre), post. simpl. now rewrite Hp.
    + intros (pre & post & Hp). destruct pre as [|b pre]; simpl in Hp.
      * left. now exists post.
      * right. injection Hp as _ Hp. now exists pre, post.
Qed.

(** X10.  A file counts as internal exactly when its path contains one of
    the four fragments: a Go source root, or the text lens.go or tracer.go
    anywhere in it.  So a file of the traced program whose name merely ends
    in lens.go or tracer.go is skipped like the library's own. *)
Theorem isInternalFile_iff (file : string) :
  (isInternalFile file = true <->
   exists marker pre post, In marker internal_markers /\ file = pre +:+ marker +:+ post) /\
  (forall dir, isInternalFile (dir +:+ "lens.go") = true) /\
  (forall dir, isInternalFile (dir +:+ "tracer.go") = true).
Proof.
  assert (Hiff : forall file, isInternalFile file = true <->
            exists marker pre post, In marker internal_markers /\ file = pre +:+ marker +:+ post).
  { clear file. intros file. unfold isInternalFile, internal_markers. split.
    - destruct (strings_Contains file "/usr/local/go/src/") eqn:H1.
      { apply strings_Contains_iff in H1 as (pre & post & Hp).
        intros _. exists "/usr/local/go/src/", pre, post. split; [simpl; auto 10 | exact Hp]. }
      destruct (strings_Contains file "/usr/lib/go/src/") eqn:H2.
      { apply strings_Contains_iff in H2 as (pre & post & Hp).
        intros _. exists "/usr/lib/go/src/", pre, post. split; [simpl; auto 10 | exact Hp]. }
      destruct (strings_Contains file "lens.go") eqn:H3.
      { apply strings_Contains_iff in H3 as (pre & post & Hp).
        intros _. exists "lens.go", pre, post. split; [simpl; auto 10 | exact Hp]. }
      destruct (strings_Contains file "tracer.go") eqn:H4; [| discriminate].
      apply strings_Contains_iff in H4 as (pre & post & Hp).
      intros _. exists "tracer.go", pre, post. split; [simpl; auto 10 | exact Hp].
    - intros (marker & pre & post & Hin & Hp).
      assert (Hc : strings_Contains file marker = true).
      { apply strings_Contains_iff. now exists pre, post. }
      simpl in Hin. destruct Hin as [<- | [<- | [<- | [<- | []]]]]; rewrite Hc;
        repeat (simpl; try reflexivity; destruct (strings_Contains file _)). }
  split; [apply Hiff |].
  split; intros dir; apply Hiff.
  - exists "lens.go", dir, "". unfold internal_markers. split; [simpl; auto 10 | reflexivity].
  - exists "tracer.go", dir, "". unfold internal_markers. split; [simpl; auto 10 | reflexivity].
Qed.

(** ** Stack traces *)

(** X11.  [getStackTrace(skip)], for a skip of at least one, lists the
    frames of the ten levels that start [skip - 1] levels above its caller,
    nearest first, leaving out those without a known function; it has at
    most ten lines and stops where the stack ends. *)
Theorem getStackTrace_window (stk : list Frame) (k : nat) :
  getStackTrace stk (S k) =
    omap (fun f => stack_line f <$> fn_of_pc f) (take 10 (drop k stk)) /\
  (length (getStackTrace stk (S k)) <= 10)%nat /\
  (length (getStackTrace stk (S k)) <= length stk - k)%nat.
Proof.
  assert (Hloop : forall stack n i,
            stack_lines stack n i =
            omap (fun f => stack_line f <$> fn_of_pc f) (take n (drop i stack))).
  { intros stack n. induction n as [|n IH]; intros i; simpl; [reflexivity |].
    rewrite runtime_Caller_lookup.
    destruct (stack !! i) as [f|] eqn:Hf.
    - rewrite (drop_S _ _ _ Hf). simpl. rewrite IH. now destruct (fn_of_pc f).
    - apply lookup_ge_None in Hf. now rewrite drop_ge. }
  unfold getStackTrace. rewrite Hloop.
  change (drop (S k) (?f :: stk)) with (drop k stk).
  split; [reflexivity |].
  assert (Hlen : forall l : list Frame,
            (length (omap (fun f => stack_line f <$> fn_of_pc f) l) <= length l)%nat).
  { induction l as [|f l IHl]; [simpl; lia |].
    cbn [omap list_omap length]. destruct (fn_of_pc f); cbn [fmap option_fmap option_map length]; lia. }
  split.
  - etransitivity; [apply Hlen |]. rewrite length_take. lia.
  - etransitivity; [apply Hlen |]. rewrite length_take, length_drop. lia.
Qed.

(** ** Spans and variable events *)

Section SpanMore.
Context {matcher : PathMatcher}.

Lemma End_run (s : SpanImpl) (w : World) :
  exists event,
    dispatched (End s w).2 = dispatched w ++ [event] /\
    ticks (End s w).2 = (ticks w + 3)%nat /\ clock (End s w).2 = clock w /\
    tracer (End s w).2 = tracer w /\
    TraceID event = span_traceID s /\ Function event = span_name s /\
    Type_ event = match span_error s with Some _ => EventError | None => EventFunctionReturn end /\
    Error event = default "" (span_error s) /\
    Duration event = mono (reading w) - mono (startTime s) /\
    Component event = "" /\ Arguments event = [] /\ ReturnValue event = [] /\
    SourceFile event = "" /\ CallerFile event = "".
Proof.
  unfold End, generateEventID, time_Since, time_Now, getGoroutineID, reading.
  run_M. rewrite TraceEvent_eq. simpl.
  eexists. split; [reflexivity |].
  split; [f_equal; lia |].
  destruct (span_error s); simpl; now repeat split.
Qed.

(** X12.  [End] dispatches exactly one event: it carries the trace id and
    the name of the span and the monotonic time since the span's start; its
    kind is error with the error's text when an error is set and
    function-return with an empty text otherwise.  It has no component, so
    every package filter accepts it, and no location. *)
Theorem End_event (s : SpanImpl) (w : World) (pf : PackageFilter) :
  exists event,
    dispatched (End s w).2 = dispatched w ++ [event] /\
    TraceID event = span_traceID s /\ Function event = span_name s /\
    Type_ event = match span_error s with Some _ => EventError | None => EventFunctionReturn end /\
    Error event = default "" (span_error s) /\
    Duration event = mono (reading w) - mono (startTime s) /\
    Component event = "" /\ SourceFile event = "" /\ CallerFile event = "" /\
    PackageFilter_ShouldTrace pf event = true.
Proof.
  destruct (End_run s w)
    as (event & Hd & _ & _ & _ & Ht & Hf & Hty & He & Hdur & Hc & _ & _ & Hs & Hcf).
  exists event. repeat split; try assumption.
  unfold PackageFilter_ShouldTrace. now rewrite Hc.
Qed.

(** X13.  A span started with [StartSpan] and ended later, on a monotonic
    clock, yields a function-return event with the span's name, the trace id
    generated at the start and a duration that is not negative.  Tags set in
    between change none of this. *)
Theorem span_duration_nonneg (name : string) (tags : list (string * Val)) (w w2 : World) :
  monotonic (clock w) -> clock w2 = clock w -> (ticks w <= ticks w2)%nat ->
  let s := fold_left (fun s' kv => SetTag s' kv.1 kv.2) tags (StartSpan name w).1 in
  exists event,
    dispatched (End s w2).2 = dispatched w2 ++ [event] /\
    Type_ event = EventFunctionReturn /\ Function event = name /\
    TraceID event = (generateTraceID (tick w)).1 /\
    Duration event = mono (reading w2) - mono (reading w) /\
    0 <= Duration event.
Proof.
  intros Hm Hc Ht s.
  assert (Hs : forall s0 : SpanImpl,
            let s' := fold_left (fun s' kv => SetTag s' kv.1 kv.2) tags s0 in
            span_name s' = span_name s0 /\ startTime s' = startTime s0 /\
            span_traceID s' = span_traceID s0 /\ span_error s' = span_error s0).
  { induction tags as [|[k v] tags IH]; intros s0; simpl; [now repeat split |].
    destruct (IH (SetTag s0 k v)) as (H1 & H2 & H3 & H4). simpl in *. now repeat split. }
  destruct (Hs (StartSpan name w).1) as (Hn & Hst & Htid & Herr). fold s in Hn, Hst, Htid, Herr.
  destruct (End_run s w2)
    as (event & Hd & _ & _ & _ & Hti & Hf & Hty & _ & Hdur & _).
  exists event. rewrite Hd, Hty, Hf, Hti, Hdur, Hn, Hst, Htid, Herr.
  repeat split. unfold reading. simpl. rewrite Hc.
  assert (mono (clock w (ticks w)) <= mono (clock w (ticks w2))) by now apply Hm.
  lia.
Qed.

(** X14.  Nothing stops a span from being ended again: a second [End]
    dispatches a second terminal event with the same trace id, name and
    kind, after the first. *)
Theorem End_twice (s : SpanImpl) (w : World) :
  exists e1 e2,
    dispatched (End s (End s w).2).2 = dispatched w ++ [e1; e2] /\
    TraceID e1 = span_traceID s /\ TraceID e2 = span_traceID s /\
    Type_ e1 = Type_ e2 /\ Function e1 = Function e2.
Proof.
  destruct (End_run s w) as (e1 & Hd1 & _ & _ & _ & Ht1 & Hf1 & Hty1 & _).
  destruct (End_run s (End s w).2) as (e2 & Hd2 & _ & _ & _ & Ht2 & Hf2 & Hty2 & _).
  exists e1, e2. rewrite Hd2, Hd1, <- app_assoc. simpl.
  split; [reflexivity |]. split; [exact Ht1 |]. split; [exact Ht2 |].
  split; congruence.
Qed.

(** X15.  [TraceVariable] dispatches exactly one event, of kind
    variable-write, with the name and the two values given; its event id is
    generated first and its trace id next.  It has no component, no function
    and no duration, so every package, function and duration filter accepts
    it. *)
Theorem TraceVariable_event (stk : list Frame) (name : string) (old new : Val) (w : World)
    (pf : PackageFilter) (ff : FunctionFilter) (df : DurationFilter) :
  exists event,
    dispatched (TraceVariable stk name old new w).2 = dispatched w ++ [event] /\
    Type_ event = EventVariableWrite /\ Variable_ event = name /\
    OldValue event = old /\ NewValue event = new /\
    ID event = (generateEventID w).1 /\ TraceID event = (generateTraceID (tick w)).1 /\
    ShouldTrace (FPackage pf) event = true /\
    ShouldTrace (FFunction ff) event = true /\
    ShouldTrace (FDuration df) event = true.
Proof.
  unfold TraceVariable, generateTraceID, generateEventID, time_Now, getGoroutineID.
  run_M. rewrite TraceEvent_eq. simpl.
  eexists. split; [reflexivity |]. now repeat split.
Qed.
End SpanMore.

(** ** Filters and the events of wrappers *)

Section WrapperFilters.
Context {matcher : PathMatcher}.

(** Component and duration of the two events of a wrapper. *)
Lemma wrapFunction_func1_fields (f : FuncValue) (name : string)
    (sl cl : SourceLocation) (stk : list Frame) (args : list Val) (w : World) :
  exists callEvent w1,
    dispatched w1 = dispatched w ++ [callEvent] /\
    Component callEvent = name /\ Duration callEvent = 0 /\
    Type_ callEvent = EventFunctionCall /\
    Function callEvent = default name (func_name f) /\
    forall rs w2,
      func_call f (callee_stack stk) args w1 = (Returned rs, w2) ->
      exists retEvent w3,
        wrapFunction_func1 f name sl cl stk args w = (Returned rs, w3) /\
        dispatched w3 = dispatched w2 ++ [retEvent] /\
        Component retEvent = name /\
        Type_ retEvent = EventFunctionReturn /\
        Function retEvent = default name (func_name f).
Proof.
  unfold wrapFunction_func1, generateTraceID, generateEventID, time_Since, time_Now,
    getGoroutineID.
  run_M. rewrite TraceEvent_eq. simpl.
  match goal with
  | |- context [func_call _ _ _ ?w1] =>
      match w1 with
      | context [record_dispatch ?e _] => exists e, w1
      end
  end.
  do 4 (split; [reflexivity |]). split; [now destruct (func_name f) |].
  intros rs w2 Hcall. unfold callee_stack in Hcall. rewrite Hcall.
  rewrite TraceEvent_eq. simpl.
  eexists _, _. split; [reflexivity |]. simpl.
  do 3 (split; [reflexivity |]). now destruct (func_name f).
Qed.

(** X16.  A function wrapped with [Wrap] gets the empty name, so its events
    have no component and every package filter accepts them, whatever its
    patterns: package filters only act on functions wrapped with
    [WrapWithName] and a name. *)
Theorem Wrap_events_pass_package_filters (f : FuncValue) (stk call_stk : list Frame)
    (args : list Val) (w : World) (pf : PackageFilter) :
  enabled (tracer w) = true ->
  exists g,
    (Wrap stk (OFunc f) w).1 = OFunc g /\
    exists callEvent w1,
      dispatched w1 = dispatched w ++ [callEvent] /\
      Type_ callEvent = EventFunctionCall /\
      ShouldTrace (FPackage pf) callEvent = true /\
      forall rs w2,
        func_call f (callee_stack call_stk) args w1 = (Returned rs, w2) ->
        exists retEvent w3,
          func_call g call_stk args w = (Returned rs, w3) /\
          dispatched w3 = dispatched w2 ++ [retEvent] /\
          Type_ retEvent = EventFunctionReturn /\
          ShouldTrace (FPackage pf) retEvent = true.
Proof.
  intros Hon. unfold Wrap, WrapWithName. run_M. rewrite Hon. simpl.
  eexists. split; [reflexivity |]. simpl.
  match goal with
  | |- context [wrapFunction_func1 f "" ?sl ?cl] =>
      destruct (wrapFunction_func1_fields f "" sl cl call_stk args w)
        as (callEvent & w1 & Hd & Hc & _ & Hty & _ & Hret)
  end.
  exists callEvent, w1. split; [exact Hd |]. split; [exact Hty |].
  split; [unfold PackageFilter_ShouldTrace; now rewrite Hc |].
  intros rs w2 Hcall.
  destruct (Hret rs w2 Hcall) as (retEvent & w3 & Hrun & Hd3 & Hc3 & Hty3 & _).
  exists retEvent, w3. split; [exact Hrun |]. split; [exact Hd3 |]. split; [exact Hty3 |].
  unfold PackageFilter_ShouldTrace. now rewrite Hc3.
Qed.

(** X17.  A duration filter never stops a call event, whose duration is
    zero, and lets a return event pass exactly when its duration is zero or
    at least the minimum.  So under [MinDuration] the call event of a fast
    call is still written while its return event is dropped. *)
Theorem duration_filter_on_wrapper (f : FuncValue) (name : string)
    (sl cl : SourceLocation) (stk : list Frame) (args : list Val) (w : World)
    (df : DurationFilter) :
  (forall event, ShouldTrace (FDuration df) event = true <->
                 Duration event = 0 \/ minDuration df <= Duration event) /\
  exists callEvent w1,
    dispatched w1 = dispatched w ++ [callEvent] /\
    Type_ callEvent = EventFunctionCall /\
    ShouldTrace (FDuration df) callEvent = true.
Proof.
  split.
  - intros event. simpl. unfold DurationFilter_ShouldTrace.
    destruct (Z.eqb_spec (Duration event) 0) as [Hz | Hz].
    + split; [now left | reflexivity].
    + rewrite Z.leb_le. split; [now right | intros [Hd | Hd]; [contradiction | exact Hd]].
  - destruct (wrapFunction_func1_fields f name sl cl stk args w)
      as (callEvent & w1 & Hd & _ & Hdur & Hty & _).
    exists callEvent, w1. split; [exact Hd |]. split; [exact Hty |].
    simpl. unfold DurationFilter_ShouldTrace. now rewrite Hdur.
Qed.

(** X18.  The function filter decides as the package filter does, on the
    function name: an empty name is accepted; otherwise a name matched by an
    exclude pattern is rejected; otherwise an empty include list accepts;
    otherwise the event is accepted exactly when an include pattern
    matches. *)
Theorem FunctionFilter_order (f : FunctionFilter) (event : Event) :
  let excluded := Exists (fun p => matched (Function event) p = true) (fn_excludePatterns f) in
  let included := Exists (fun p => matched (Function event) p = true) (fn_includePatterns f) in
  (Function event = "" -> FunctionFilter_ShouldTrace f event = true) /\
  (Function event <> "" -> excluded -> FunctionFilter_ShouldTrace f event = false) /\
  (Function event <> "" -> ~ excluded -> fn_includePatterns f = [] ->
     FunctionFilter_ShouldTrace f event = true) /\
  (Function event <> "" -> ~ excluded -> fn_includePatterns f <> [] ->
     (FunctionFilter_ShouldTrace f event = true <-> included)).
Proof.
  intros excluded included. unfold FunctionFilter_ShouldTrace.
  destruct (String.eqb_spec (Function event) "") as [Hc | Hc].
  { repeat split; congruence. }
  destruct (range_returns (matched (Function event)) (fn_excludePatterns f)) eqn:Hex.
  { apply range_returns_Exists in Hex. repeat split; try reflexivity; contradiction. }
  assert (Hnex : ~ excluded).
  { intros Hx. apply range_returns_Exists in Hx. congruence. }
  destruct (fn_includePatterns f) as [|p ps] eqn:Hinc; simpl length; simpl Nat.eqb.
  { repeat split; try reflexivity; congruence. }
  destruct (range_returns (matched (Function event)) (p :: ps)) eqn:Hin.
  - apply range_returns_Exists in Hin.
    repeat split; try reflexivity; try contradiction; try congruence; auto.
  - assert (Hnin : ~ included).
    { intros Hx. apply range_returns_Exists in Hx. congruence. }
    repeat split; try contradiction; try congruence.
Qed.

(** X19.  Exclude patterns add up and only take events away: excluding in
    two steps is excluding the two lists at once, and after
    [ExcludePackages] an event is accepted exactly when it was accepted
    before and either has no component or is matched by none of the new
    patterns. *)
Theorem ExcludePackages_restricts (f : PackageFilter) (ps qs : list string) (event : Event) :
  ExcludePackages (ExcludePackages f ps) qs = ExcludePackages f (ps ++ qs) /\
  PackageFilter_ShouldTrace (ExcludePackages f ps) event =
    PackageFilter_ShouldTrace f event &&
    (String.eqb (Component event) "" || negb (existsb (matched (Component event)) ps)).
Proof.
  split.
  - unfold ExcludePackages. simpl. now rewrite app_assoc.
  - assert (Hex : forall xs, range_returns (matched (Component event)) xs =
                             existsb (matched (Component event)) xs).
    { induction xs as [|x xs IH]; simpl; [reflexivity |]. rewrite IH.
      now destruct (matched (Component event) x). }
    unfold PackageFilter_ShouldTrace, ExcludePackages. simpl.
    rewrite range_returns_app, !Hex.
    destruct (String.eqb (Component event) ""); [reflexivity |].
    destruct (existsb _ (pkg_excludePatterns f)); simpl; [reflexivity |].
    destruct (existsb _ ps); simpl; [now rewrite andb_false_r | now rewrite andb_true_r].
Qed.

(** The map built by [NewEventTypeFilter] holds exactly the given types. *)
Lemma allowed_types_lookup (types : list EventType) (m : gmap EventType bool) (t : EventType) :
  fold_left (fun m t => <[t:=true]> m) types m !! t =
  if bool_decide (t ∈ types) then Some true else m !! t.
Proof.
  revert m. induction types as [|x types IH]; intros m; simpl.
  - reflexivity.
  - rewrite IH. destruct (decide (t = x)) as [-> | Hne].
    + rewrite lookup_insert_eq.
      rewrite (bool_decide_eq_true_2 (x ∈ x :: types)) by apply list_elem_of_here.
      now destruct (bool_decide (x ∈ types)).
    + rewrite lookup_insert_ne by congruence.
      destruct (bool_decide (t ∈ types)) eqn:Hin.
      * apply bool_decide_eq_true in Hin.
        rewrite bool_decide_eq_true_2; [reflexivity | now apply list_elem_of_further].
      * apply bool_decide_eq_false in Hin.
        rewrite bool_decide_eq_false_2; [reflexivity |].
        intros Hin'. apply elem_of_cons in Hin' as [? | ?]; congruence.
Qed.

(** X20.  [OnlyEventTypes] with no type accepts every event; with types it
    accepts exactly the events whose kind is among them, however often a
    kind is repeated. *)
Theorem EventTypeFilter_membership (types : list EventType) (event : Event) :
  ShouldTrace (FEventType (NewEventTypeFilter types)) event = true <->
  types = [] \/ Type_ event ∈ types.
Proof.
  simpl. unfold EventTypeFilter_ShouldTrace, NewEventTypeFilter. simpl.
  destruct types as [|x types].
  - simpl. rewrite map_size_empty. simpl. split; [now left | reflexivity].
  - set (m := fold_left _ (x :: types) ∅).
    assert (Hx : m !! x = Some true).
    { unfold m. rewrite allowed_types_lookup.
      now rewrite bool_decide_eq_true_2 by apply list_elem_of_here. }
    assert (Hsize : size m <> 0%nat).
    { intros Hs. apply map_size_empty_iff in Hs. rewrite Hs, lookup_empty in Hx. discriminate. }
    destruct (Nat.eqb_spec (size m) 0) as [Hs | _]; [contradiction |].
    unfold m. rewrite allowed_types_lookup, lookup_empty.
    destruct (bool_decide (Type_ event ∈ x :: types)) eqn:Hin; simpl.
    + apply bool_decide_eq_true in Hin. split; [now right | reflexivity].
    + apply bool_decide_eq_false in Hin.
      split; [discriminate | intros [Hnil | Hin']; [discriminate | contradiction]].
Qed.
End WrapperFilters.

(** ** The console writer *)

Lemma append_cons (x : ascii) (a b : string) : String x a +:+ b = String x (a +:+ b).
Proof. reflexivity. Qed.

Lemma append_assoc (a b c : string) : (a +:+ b) +:+ c = a +:+ b +:+ c.
Proof.
  induction a as [|x a IH]; [reflexivity |]. rewrite !append_cons. now f_equal.
Qed.

Lemma length_append (a b : string) :
  String.length (a +:+ b) = (String.length a + String.length b)%nat.
Proof.
  induction a as [|x a IH]; [reflexivity |]. rewrite append_cons. simpl. now f_equal.
Qed.

Lemma substring_all (s : string) : String.substring 0 (String.length s) s = s.
Proof. induction s as [|x s IH]; simpl; [reflexivity | now f_equal]. Qed.

Lemma substring_skip (a b : string) (m : nat) :
  String.substring (String.length a) m (a +:+ b) = String.substring 0 m b.
Proof.
  induction a as [|x a IH]; [reflexivity |]. rewrite append_cons. simpl. exact IH.
Qed.

(** From any index inside the last segment, the loop runs down to the last
    slash and returns what follows it. *)
Lemma cut_at_last_slash_found (dir base : string) (k : nat) :
  (forall j, String.get j base <> Some "/"%char) ->
  (k <= String.length base)%nat ->
  cut_at_last_slash (dir +:+ String "/" base) (S (String.length dir) + k) = base.
Proof.
  intros Hbase. induction k as [|k IH]; intros Hk.
  - rewrite Nat.add_0_r. cbn [cut_at_last_slash].
    pose proof (append_correct2 dir (String "/" base) 0) as Hg. simpl in Hg.
    rewrite <- Hg, Ascii.eqb_refl, length_append. simpl String.length.
    replace (String.length dir + S (String.length base) - S (String.length dir))%nat
      with (String.length base) by lia.
    change (dir +:+ String "/" base) with (dir +:+ ("/" +:+ base)).
    rewrite <- append_assoc.
    replace (S (String.length dir)) with (String.length (dir +:+ "/"))
      by (rewrite length_append; simpl; lia).
    rewrite substring_skip. apply substring_all.
  - replace (S (String.length dir) + S k)%nat with (S (S k + String.length dir)) by lia.
    cbn [cut_at_last_slash].
    pose proof (append_correct2 dir (String "/" base) (S k)) as Hg. simpl in Hg.
    simpl Nat.add. rewrite <- Hg.
    replace (S (k + String.length dir))%nat with (S (String.length dir) + k)%nat by lia.
    destruct (String.get k base) as [c|] eqn:Hc.
    + destruct (Ascii.eqb_spec c "/") as [-> | _]; [now apply Hbase in Hc |].
      apply IH. lia.
    + apply IH. lia.
Qed.

Lemma cut_at_last_slash_none (file : string) (n : nat) :
  (forall j, String.get j file <> Some "/"%char) ->
  cut_at_last_slash file n = file.
Proof.
  intros Hfile. induction n as [|n IH]; [reflexivity |].
  cbn [cut_at_last_slash]. destruct (String.get n file) as [c|] eqn:Hc; [| exact IH].
  destruct (Ascii.eqb_spec c "/") as [-> | _]; [now apply Hfile in Hc | exact IH].
Qed.

(** X21.  The console line shows a location only for an event with a caller
    file and a positive caller line, and then only the last segment of the
    path: what follows the last slash, or the whole name when it has no
    slash. *)
Theorem sourceInfo_last_segment (event : Event) (dir base : string) :
  (forall j, String.get j base <> Some "/"%char) ->
  (CallerFile event = "" \/ CallerLine event <= 0 -> sourceInfo event = "") /\
  (0 < CallerLine event -> CallerFile event = dir +:+ "/" +:+ base ->
   sourceInfo event = " [" +:+ base +:+ ":" +:+ fmt_d (CallerLine event) +:+ "]") /\
  (0 < CallerLine event -> CallerFile event = base -> base <> "" ->
   sourceInfo event = " [" +:+ base +:+ ":" +:+ fmt_d (CallerLine event) +:+ "]").
Proof.
  intros Hbase. unfold sourceInfo. split; [| split].
  - intros [Hf | Hl].
    + now rewrite Hf.
    + apply Z.ltb_ge in Hl. rewrite Hl. now rewrite andb_false_r.
  - intros Hl Hf. apply Z.ltb_lt in Hl. rewrite Hl, Hf.
    change (dir +:+ "/" +:+ base) with (dir +:+ String "/" base).
    assert (Hne : String.eqb (dir +:+ String "/" base) "" = false).
    { apply String.eqb_neq. destruct dir; discriminate. }
    rewrite Hne. simpl negb. cbn [andb].
    replace (String.length (dir +:+ String "/" base))
      with (S (String.length dir) + String.length base)%nat
      by (rewrite length_append; simpl; lia).
    now rewrite cut_at_last_slash_found.
  - intros Hl Hf Hne. apply Z.ltb_lt in Hl. rewrite Hl, Hf.
    apply String.eqb_neq in Hne. rewrite Hne. simpl negb. cbn [andb].
    now rewrite cut_at_last_slash_none.
Qed.

Section ConsoleMore.
Context {formatter : Formatter}.

(** X22.  The coloured console line is the plain line wrapped in colour
    codes: the colour of the event's kind in front and the reset code
    behind. *)
Theorem formatColored_wraps_plain (event : Event) :
  formatColored event =
    event_color (Type_ event) +:+ formatPlain event +:+ colorReset /\
  (ConsoleWriter_Write true event).1 =
    event_color (Type_ event) +:+ (ConsoleWriter_Write false event).1 +:+ colorReset.
Proof.
  assert (Heq : formatColored event =
                event_color (Type_ event) +:+ formatPlain event +:+ colorReset).
  { unfold formatColored, formatPlain. cbv zeta.
    now rewrite !append_assoc. }
  split; [exact Heq |]. simpl. exact Heq.
Qed.
End ConsoleMore.

(** ** The JSON file writer *)

Section JSONMore.
Context {jsonlib : JSONLib}.

(** X23.  [Close] lets go of the file once: it makes one close call when
    the file is open and none otherwise, and whatever that call returns the
    writer has no file afterwards.  From then on [Close] and [Flush] return
    nil without a call, and [Write] returns an error without one. *)
Theorem JSONFileWriter_Close_once (w : JSONFileWriter_) (event : Event) (d : Disk) :
  let closed := (JSONFileWriter_Close w d).1.2 in
  let d' := (JSONFileWriter_Close w d).2 in
  jw_file closed = None /\
  os_calls d' =
    os_calls d ++ match jw_file w with Some file => [OsClose file] | None => [] end /\
  JSONFileWriter_Close closed d' = ((None, closed), d') /\
  JSONFileWriter_Flush closed d' = (None, d') /\
  (JSONFileWriter_Write closed event d').2 = d' /\
  is_Some (JSONFileWriter_Write closed event d').1.
Proof.
  unfold JSONFileWriter_Close, JSONFileWriter_Flush, JSONFileWriter_Write.
  destruct (jw_file w) as [file|] eqn:Hfile; simpl.
  - repeat split; destruct (json_Marshal event); simpl; eauto.
  - rewrite Hfile, app_nil_r.
    repeat split; destruct (json_Marshal event); simpl; eauto.
Qed.

Lemma Write_calls (w : JSONFileWriter_) (file : nat) (e : Event) (d : Disk) :
  jw_file w = Some file ->
  os_calls (JSONFileWriter_Write w e d).2 =
    os_calls d ++ match line_write file e with Some c => [c] | None => [] end /\
  os_error (JSONFileWriter_Write w e d).2 = os_error d.
Proof.
  intros Hfile. unfold JSONFileWriter_Write, line_write. rewrite Hfile.
  destruct (json_Marshal e) as [data | err]; simpl.
  - now destruct (os_error d (length (os_calls d))).
  - now rewrite app_nil_r.
Qed.

Lemma write_all_calls (w : JSONFileWriter_) (file : nat) (events : list Event) (d : Disk) :
  jw_file w = Some file ->
  os_calls (write_all w events d).2 = os_calls d ++ omap (line_write file) events /\
  length (write_all w events d).1 = length events /\
  os_error (write_all w events d).2 = os_error d.
Proof.
  intros Hfile. revert d. induction events as [|e events IH]; intros d.
  - simpl. now rewrite app_nil_r.
  - cbn [write_all omap list_omap].
    destruct (Write_calls w file e d Hfile) as (Hc1 & He1).
    destruct (JSONFileWriter_Write w e d) as [err d1]. simpl in Hc1, He1.
    destruct (IH d1) as (Hc & Hl & He).
    destruct (write_all w events d1) as [errs d2]. simpl in *.
    rewrite Hc, Hc1, He, He1, Hl, <- app_assoc.
    now destruct (line_write file e).
Qed.

(** X24.  A writer made by [NewJSONFileWriter] creates the directory, then
    opens the file; each [Write] then makes one write call holding the
    event's encoding and a newline, in the order of the events, an event
    that cannot be encoded making none; [Close] closes the file that was
    opened.  Every [Write] returns, error or not. *)
Theorem JSONFileWriter_session (path : string) (events : list Event) (d d1 : Disk)
    (w : JSONFileWriter_) :
  NewJSONFileWriter path d = (inl w, d1) ->
  let written := write_all w events d1 in
  exists file,
    jw_file w = Some file /\
    os_calls (JSONFileWriter_Close w written.2).2 =
      os_calls d
      ++ [OsMkdirAll (filepath_Dir path) 493;
          OsOpenFile path [O_CREATE; O_WRONLY; O_APPEND] 420]
      ++ omap (line_write file) events
      ++ [OsClose file] /\
    length written.1 = length events.
Proof.
  unfold NewJSONFileWriter. simpl.
  destruct (os_error d (length (os_calls d))) as [e|]; [discriminate |].
  simpl.
  destruct (os_error d (length (os_calls d ++ [_]))) as [e|]; [discriminate |].
  intros [= <- <-]. simpl.
  eexists. split; [reflexivity |].
  match goal with
  | |- context [write_all ?w0 events ?d0] =>
      destruct (write_all_calls w0 _ events d0 eq_refl) as (Hc & Hl & _)
  end.
  split; [| exact Hl].
  unfold JSONFileWriter_Close. simpl. rewrite Hc. simpl.
  now rewrite <- !app_assoc.
Qed.
End JSONMore.

(** ** Wrapping a wrapper, and the method wrapper *)

Section NestedWrappers.
Context {matcher : PathMatcher}.

(** The two events of a wrapper and what it hands back. *)
Lemma wrapFunction_func1_pair (f : FuncValue) (name : string)
    (sl cl : SourceLocation) (stk : list Frame) (args : list Val) (w : World) :
  exists callEvent w1,
    dispatched w1 = dispatched w ++ [callEvent] /\
    Type_ callEvent = EventFunctionCall /\
    forall outcome w2,
      func_call f (callee_stack stk) args w1 = (outcome, w2) ->
      match outcome with
      | Returned rs =>
          exists retEvent w3,
            wrapFunction_func1 f name sl cl stk args w = (Returned rs, w3) /\
            dispatched w3 = dispatched w2 ++ [retEvent] /\
            Type_ retEvent = EventFunctionReturn /\
            TraceID retEvent = TraceID callEvent /\
            ReturnValue retEvent = rs
      | Panicked v => wrapFunction_func1 f name sl cl stk args w = (Panicked v, w2)
      end.
Proof.
  unfold wrapFunction_func1, generateTraceID, generateEventID, time_Since, time_Now,
    getGoroutineID.
  run_M. rewrite TraceEvent_eq. simpl.
  match goal with
  | |- context [func_call _ _ _ ?w1] =>
      match w1 with
      | context [record_dispatch ?e _] => exists e, w1
      end
  end.
  do 2 (split; [reflexivity |]).
  intros outcome w2 Hcall. unfold callee_stack in Hcall. rewrite Hcall.
  destruct outcome as [rs | v]; [| reflexivity].
  rewrite TraceEvent_eq. simpl.
  eexists _, _. split; [reflexivity |]. simpl. now repeat split.
Qed.

(** X25.  A wrapper can be wrapped again.  Each call of the result then
    dispatches four events around the original: the outer call event, the
    inner call event, and after the original has returned the inner return
    event and the outer return event, each return event carrying the trace
    id of its own call event; the results come back unchanged.  When the
    original panics the panic comes back and no return event is
    dispatched. *)
Theorem double_wrap_nests (stk1 stk2 call_stk : list Frame) (f : FuncValue)
    (n1 n2 : string) (args : list Val) (w : World) :
  exists g,
    wrapFunction stk2 (wrapFunction stk1 (OFunc f) n1) n2 = OFunc g /\
    exists outerCall innerCall w1,
      dispatched w1 = dispatched w ++ [outerCall; innerCall] /\
      (forall rs w2,
         func_call f (callee_stack (callee_stack call_stk)) args w1 = (Returned rs, w2) ->
         exists innerReturn outerReturn w3,
           func_call g call_stk args w = (Returned rs, w3) /\
           dispatched w3 = dispatched w2 ++ [innerReturn; outerReturn] /\
           TraceID innerReturn = TraceID innerCall /\
           TraceID outerReturn = TraceID outerCall /\
           ReturnValue innerReturn = rs /\ ReturnValue outerReturn = rs) /\
      (forall v w2,
         func_call f (callee_stack (callee_stack call_stk)) args w1 = (Panicked v, w2) ->
         func_call g call_stk args w = (Panicked v, w2)).
Proof.
  simpl. eexists. split; [reflexivity |]. simpl.
  match goal with
  | |- context [wrapFunction_func1 ?inner n2 ?sl ?cl call_stk args w] =>
      destruct (wrapFunction_func1_pair inner n2 sl cl call_stk args w)
        as (outerCall & wa & Hda & _ & Houter)
  end.
  simpl in Houter.
  match type of Houter with
  | context [wrapFunction_func1 f n1 ?sl ?cl (callee_stack call_stk) args wa] =>
      destruct (wrapFunction_func1_pair f n1 sl cl (callee_stack call_stk) args wa)
        as (innerCall & w1 & Hd1 & _ & Hinner)
  end.
  exists outerCall, innerCall, w1.
  split; [rewrite Hd1, Hda, <- app_assoc; reflexivity |].
  split.
  - intros rs w2 Hcall.
    destruct (Hinner _ _ Hcall) as (innerReturn & wb & Hrun & Hdb & _ & Htid & Hrv).
    destruct (Houter _ _ Hrun) as (outerReturn & w3 & Hrun3 & Hd3 & _ & Htid3 & Hrv3).
    exists innerReturn, outerReturn, w3.
    split; [exact Hrun3 |].
    split; [rewrite Hd3, Hdb, <- app_assoc; reflexivity |]. now repeat split.
  - intros v w2 Hcall.
    pose proof (Hinner _ _ Hcall) as Hrun. simpl in Hrun.
    exact (Houter _ _ Hrun).
Qed.

(** X26.  The method wrapper of [createMethodWrapper] dispatches a
    method-call event with the wrapper's name as component and the method
    name as function, calls the method, and dispatches a function-return
    event with the same trace id, component and function; it returns the
    method's results unchanged and lets a panic through.  Called from a
    frame outside the library, with Go under /usr/local/go, both events
    carry the place of that call as source and as caller location. *)
Theorem createMethodWrapper_events (sw_name methodName : string) (method : Callable)
    (top : Frame) (stk : list Frame) (args : list Val) (w : World) :
  isInternalFile (frame_file top) = false ->
  let stk' := valueCall_frames
                (frame "github.com/baretech/lens.(*structWrapper).createMethodWrapper.func1"
                   tracer_go 169 :: makeFunc_frames (top :: stk)) in
  let here e :=
    {| File := SourceFile e; Line := SourceLine e; Function_ := SourceFunction e |}
      = location_of top /\
    {| File := CallerFile e; Line := CallerLine e; Function_ := CallerFunction e |}
      = location_of top in
  exists callEvent w1,
    dispatched w1 = dispatched w ++ [callEvent] /\
    Type_ callEvent = EventMethodCall /\
    Component callEvent = sw_name /\ Function callEvent = methodName /\
    Arguments callEvent = args /\ here callEvent /\
    (forall rs w2,
       method stk' args w1 = (Returned rs, w2) ->
       exists retEvent w3,
         createMethodWrapper_func1 sw_name method methodName (top :: stk) args w
           = (Returned rs, w3) /\
         dispatched w3 = dispatched w2 ++ [retEvent] /\
         Type_ retEvent = EventFunctionReturn /\
         TraceID retEvent = TraceID callEvent /\
         Component retEvent = sw_name /\ Function retEvent = methodName /\
         ReturnValue retEvent = rs /\ here retEvent) /\
    (forall v w2,
       method stk' args w1 = (Panicked v, w2) ->
       createMethodWrapper_func1 sw_name method methodName (top :: stk) args w
         = (Panicked v, w2)).
Proof.
  intros Htop stk' here. subst stk' here.
  assert (Hloc : forall fr : Frame,
            getSourceLocation (fr :: makeFunc_frames (top :: stk)) 2 = location_of top).
  { intros fr. rewrite getSourceLocation_eq. unfold makeFunc_frames.
    cbn [drop take find]. unfold frame at 1 2. cbn [frame_file].
    replace (isInternalFile reflect_value_go) with true by reflexivity.
    replace (isInternalFile reflect_asm) with true by reflexivity.
    cbn [negb]. now rewrite Htop. }
  unfold createMethodWrapper_func1, generateTraceID, generateEventID, time_Since, time_Now,
    getGoroutineID.
  run_M. rewrite TraceEvent_eq. simpl.
  match goal with
  | |- context [method _ _ ?w1] =>
      match w1 with
      | context [record_dispatch ?e _] => exists e, w1
      end
  end.
  rewrite (getCallerLocation_eq _
             (frame "github.com/baretech/lens.(*structWrapper).createMethodWrapper.func1"
                tracer_go 141)), !Hloc.
  do 5 (split; [reflexivity |]).
  split; [split; reflexivity |].
  split.
  - intros rs w2 Hcall. rewrite Hcall. rewrite TraceEvent_eq. simpl.
    eexists _, _. split; [reflexivity |]. simpl.
    do 6 (split; [reflexivity |]). split; reflexivity.
  - intros v w2 Hcall. now rewrite Hcall.
Qed.
End NestedWrappers.

(** ** The further properties on concrete inputs *)

Lemma disabled_wrapper_silent_witness :
  enabled (tracer world_off) = false /\
  (wrapFunction_func1 (matcher := glob_matcher) add "" SourceLocation_zero
     SourceLocation_zero (main_at 20) [VInt 2; VInt 3] world_off).1 = Returned [VInt 5] /\
  writes (wrapFunction_func1 (matcher := glob_matcher) add "" SourceLocation_zero
            SourceLocation_zero (main_at 20) [VInt 2; VInt 3] world_off).2 = [].
Proof.
  split; [reflexivity |].
  destruct (disabled_wrapper_silent (matcher := glob_matcher) add "" SourceLocation_zero
              SourceLocation_zero (main_at 20) [VInt 2; VInt 3] world_off eq_refl)
    as (w1 & Hw & Ht & Hrun).
  destruct (Hrun (Returned [VInt 5]) w1 eq_refl) as (Hout & Hwr & _).
  - now rewrite Ht.
  - split; [exact Hout |]. now rewrite Hwr, Hw.
Defined.

Lemma getCallerLocation_same_as_source_witness :
  (2 <= 2)%nat /\
  getCallerLocation
    (frame "github.com/baretech/lens.(*TracerImpl).TraceVariable" tracer_go 369 :: main_at 50) 2 =
  getSourceLocation
    (frame "github.com/baretech/lens.(*TracerImpl).TraceVariable" tracer_go 368 :: main_at 50) 2.
Proof.
  split; [lia |].
  apply (getCallerLocation_same_as_source
           (frame "github.com/baretech/lens.(*TracerImpl).TraceVariable" tracer_go 369)
           (frame "github.com/baretech/lens.(*TracerImpl).TraceVariable" tracer_go 368)
           (main_at 50) 2).
  lia.
Defined.

Lemma events_source_equals_caller_witness :
  enabled (tracer world_fine) = true /\
  exists event,
    dispatched (TraceVariable (matcher := glob_matcher) (main_at 50) "x" (VInt 1) (VInt 2)
                  world_fine).2 = dispatched world_fine ++ [event] /\
    same_location event.
Proof.
  split; [reflexivity |].
  exact (proj2 (events_source_equals_caller (matcher := glob_matcher) (main_at 50) (main_at 60)
                  add "x" [] (VInt 1) (VInt 2) world_fine eq_refl)).
Defined.

Lemma span_duration_nonneg_witness :
  monotonic (clock world_fine) /\
  exists event,
    dispatched (End (matcher := glob_matcher) (StartSpan "load" world_fine).1
                  (StartSpan "load" world_fine).2).2 =
      dispatched (StartSpan "load" world_fine).2 ++ [event] /\
    0 <= Duration event.
Proof.
  split; [exact clock_fine_monotonic |].
  destruct (span_duration_nonneg (matcher := glob_matcher) "load" [] world_fine
              (StartSpan "load" world_fine).2 clock_fine_monotonic eq_refl)
    as (event & Hd & _ & _ & _ & _ & Hdur).
  - simpl. lia.
  - exists event. split; [exact Hd | exact Hdur].
Defined.

Lemma Wrap_events_pass_package_filters_witness :
  enabled (tracer world_fine) = true /\
  exists callEvent w1,
    dispatched w1 = dispatched world_fine ++ [callEvent] /\
    ShouldTrace (matcher := glob_matcher)
      (FPackage (ExcludePackages NewPackageFilter ["*"])) callEvent = true.
Proof.
  split; [reflexivity |].
  destruct (Wrap_events_pass_package_filters (matcher := glob_matcher) add (main_at 10)
              (main_at 20) [VInt 2; VInt 3] world_fine
              (ExcludePackages NewPackageFilter ["*"]) eq_refl)
    as (g & _ & callEvent & w1 & Hd & _ & Hpass & _).
  exists callEvent, w1. split; [exact Hd | exact Hpass].
Defined.

Lemma FunctionFilter_order_witness :
  Function (call_event "" "noisyHelper") <> "" /\
  Exists (fun p => matched (matcher := glob_matcher) (Function (call_event "" "noisyHelper")) p
                   = true)
    (fn_excludePatterns (ExcludeFunctions NewFunctionFilter ["noisy*"])) /\
  FunctionFilter_ShouldTrace (matcher := glob_matcher)
    (ExcludeFunctions NewFunctionFilter ["noisy*"]) (call_event "" "noisyHelper") = false.
Proof.
  assert (Hf : Function (call_event "" "noisyHelper") <> "") by (simpl; discriminate).
  assert (Hx : Exists (fun p => matched (matcher := glob_matcher)
                                  (Function (call_event "" "noisyHelper")) p = true)
                 (fn_excludePatterns (ExcludeFunctions NewFunctionFilter ["noisy*"]))).
  { apply Exists_cons_hd. reflexivity. }
  split; [exact Hf |]. split; [exact Hx |].
  exact (proj1 (proj2 (FunctionFilter_order (matcher := glob_matcher)
           (ExcludeFunctions NewFunctionFilter ["noisy*"]) (call_event "" "noisyHelper")))
           Hf Hx).
Defined.

Lemma sourceInfo_last_segment_witness :
  0 < CallerLine (located_event "/home/dev/app/main.go" 20) /\
  sourceInfo (located_event "/home/dev/app/main.go" 20) = " [main.go:20]".
Proof.
  split; [reflexivity |].
  assert (Hbase : forall j, String.get j "main.go" <> Some "/"%char).
  { intros j. do 8 (destruct j as [|j]; [discriminate |]). discriminate. }
  exact (proj1 (proj2 (sourceInfo_last_segment (located_event "/home/dev/app/main.go" 20)
                         "/home/dev/app" "main.go" Hbase)) eq_refl eq_refl).
Defined.

Lemma JSONFileWriter_session_witness :
  exists w d1,
    NewJSONFileWriter (jsonlib := id_codec) "./traces/simple.json" disk_ok = (inl w, d1) /\
    os_calls (JSONFileWriter_Close w
                (write_all (jsonlib := id_codec) w
                   [call_event "main" "main.add"; timed_event 700] d1).2).2 =
      [OsMkdirAll "." 493;
       OsOpenFile "./traces/simple.json" [O_CREATE; O_WRONLY; O_APPEND] 420;
       OsWrite 1 ("evt_1" +:+ String (ascii_of_nat 10) "");
       OsWrite 1 ("evt_2" +:+ String (ascii_of_nat 10) "");
       OsClose 1].
Proof.
  eexists _, _. split; [reflexivity |].
  destruct (JSONFileWriter_session (jsonlib := id_codec) "./traces/simple.json"
              [call_event "main" "main.add"; timed_event 700] disk_ok _ _ eq_refl)
    as (file & Hfile & Hcalls & _).
  injection Hfile as <-. exact Hcalls.
Defined.

Lemma double_wrap_nests_witness :
  exists g w3,
    wrapFunction (matcher := glob_matcher) (main_at 11)
      (wrapFunction (matcher := glob_matcher) (main_at 10) (OFunc add) "inner") "outer"
      = OFunc g /\
    func_call g (main_at 20) [VInt 2; VInt 3] world_fine = (Returned [VInt 5], w3) /\
    length (dispatched w3) = 4%nat.
Proof.
  destruct (double_wrap_nests (matcher := glob_matcher) (main_at 10) (main_at 11) (main_at 20)
              add "inner" "outer" [VInt 2; VInt 3] world_fine)
    as (g & Hg & outerCall & innerCall & w1 & Hd1 & Hret & _).
  destruct (Hret [VInt 5] w1 eq_refl)
    as (innerReturn & outerReturn & w3 & Hrun & Hd3 & _).
  exists g, w3. split; [exact Hg |]. split; [exact Hrun |].
  rewrite Hd3, Hd1. reflexivity.
Defined.

Lemma createMethodWrapper_events_witness :
  isInternalFile "/home/dev/app/main.go" = false /\
  exists callEvent w1,
    dispatched w1 = dispatched world_fine ++ [callEvent] /\
    SourceLine callEvent = 20 /\ CallerLine callEvent = 20.
Proof.
  split; [reflexivity |].
  destruct (createMethodWrapper_events (matcher := glob_matcher) "Calculator" "Calculator.Add"
              (func_call add) (frame "main.main" "/home/dev/app/main.go" 20) [] [VInt 2; VInt 3]
              world_fine eq_refl)
    as (callEvent & w1 & Hd & _ & _ & _ & _ & [Hs Hc] & _).
  exists callEvent, w1. split; [exact Hd |].
  injection Hs as _ Hs _. injection Hc as _ Hc _. now split.
Defined.

(** ** Enabling and disabling *)

Section Switch.
Context {matcher : PathMatcher}.

(** X27.  After [Disable] no event is written, whatever the filters say,
    while level, writers and filters stay as they are; [Enable] after
    [Disable] gives back the world of an enabled tracer exactly, so every
    later dispatch behaves as before. *)
Theorem Disable_then_Enable (event : Event) (w : World) :
  enabled (tracer w) = true ->
  writes (TraceEvent event (Disable w).2).2 = writes w /\
  level (tracer (Disable w).2) = level (tracer w) /\
  writers (tracer (Disable w).2) = writers (tracer w) /\
  filters (tracer (Disable w).2) = filters (tracer w) /\
  (Enable (Disable w).2).2 = w /\
  TraceEvent event (Enable (Disable w).2).2 = TraceEvent event w.
Proof.
  intros Hon.
  assert (Hback : (Enable (Disable w).2).2 = w).
  { unfold Enable, Disable. run_M. unfold set_tracer. simpl.
    destruct w as [t c n g ds ws]. destruct t as [l e wrs fs]. simpl in *. now subst e. }
  rewrite Hback. rewrite TraceEvent_eq. unfold Disable. run_M.
  repeat split. apply app_nil_r.
Qed.
End Switch.

Lemma Disable_then_Enable_witness :
  enabled (tracer world_fine) = true /\
  writes (TraceEvent (matcher := glob_matcher) (call_event "main" "main.add")
            (Disable world_fine).2).2 = [] /\
  (Enable (Disable world_fine).2).2 = world_fine.
Proof.
  split; [reflexivity |].
  destruct (Disable_then_Enable (matcher := glob_matcher) (call_event "main" "main.add")
              world_fine eq_refl) as (Hw & _ & _ & _ & Hback & _).
  split; [exact Hw | exact Hback].
Defined.
